(** * Query composition and permission-gated paging over a document store

    A shallow embedding of [src/helper/cosmosdb.helper.ts] (class
    [CosmosDbHelper]) and [src/services/cases.service.ts] (class
    [CasesService]), and the properties of the clause builders, the query
    composer and the list service.

    JavaScript strings are held as [string]; every operation the builders
    use (splitting on a dot or a blank, searching for the text AND,
    concatenation, dropping a trailing comma and blank) acts on single ASCII
    characters, so it reads the same on the UTF-8 form of the text. *)

From Stdlib Require Import List String Ascii Bool Arith ZArith Lia.
From Stdlib Require Import Numbers.DecimalString.
Import ListNotations.
Local Open Scope list_scope.
Local Open Scope string_scope.

(** ** The JavaScript primitives the two classes rely on *)

Module Js.

(** The one-character string holding a double quote (code 34). *)
Definition dquote : string := String (ascii_of_nat 34) EmptyString.

(** [s.split(sep)] for a separator of one character: never empty, and the
    empty string splits into one empty piece. *)
Fixpoint split (sep : ascii) (s : string) : list string :=
  match s with
  | EmptyString => [EmptyString]
  | String c rest =>
      if Ascii.eqb c sep then EmptyString :: split sep rest
      else match split sep rest with
           | [] => [String c EmptyString]
           | piece :: pieces => String c piece :: pieces
           end
  end.

(** [s.replace(pat, by)] for a pattern of one character given as a string:
    only the first occurrence is replaced. *)
Fixpoint replace (pat : ascii) (by_ : string) (s : string) : string :=
  match s with
  | EmptyString => EmptyString
  | String c rest =>
      if Ascii.eqb c pat then by_ ++ rest else String c (replace pat by_ rest)
  end.

(** [s.includes(needle)]. *)
Fixpoint includes (needle s : string) : bool :=
  String.prefix needle s ||
  match s with
  | EmptyString => false
  | String _ rest => includes needle rest
  end.

(** [arr.join(sep)]. *)
Definition join (sep : string) (arr : list string) : string :=
  String.concat sep arr.

(** [s.substr(0, n)]. *)
Definition substr0 (n : nat) (s : string) : string := String.substring 0 n s.

(** [arr.push(x)], on the array held as a list. *)
Definition push {A : Type} (arr : list A) (x : A) : list A :=
  (arr ++ [x])%list.

(** [arr.forEach((item, index) => ...)] where the callback updates a local
    of the enclosing function: the local is threaded through the calls. *)
Fixpoint forEach {A St : Type} (f : St -> A -> nat -> St)
    (arr : list A) (index : nat) (acc : St) : St :=
  match arr with
  | [] => acc
  | item :: rest => forEach f rest (S index) (f acc item index)
  end.

(** [arr.map((item, index) => ...)]. *)
Fixpoint mapi {A B : Type} (f : A -> nat -> B) (arr : list A) (index : nat)
    : list B :=
  match arr with
  | [] => []
  | item :: rest => f item index :: mapi f rest (S index)
  end.

(** An array index written in a template literal. *)
Definition indexToString (index : nat) : string :=
  NilEmpty.string_of_uint (Nat.to_uint index).

(** A value that may be [undefined], written in a template literal. *)
Definition templateOfOptional (s : option string) : string :=
  match s with
  | Some text => text
  | None => "undefined"
  end.

(** [a === b] where [a] may be undefined and [b] is a string literal. *)
Definition strictEqString (a : option string) (b : string) : bool :=
  match a with
  | Some text => String.eqb text b
  | None => false
  end.

(** A character does not occur in a string. *)
Fixpoint lacks (c : ascii) (s : string) : bool :=
  match s with
  | EmptyString => true
  | String d rest => negb (Ascii.eqb d c) && lacks c rest
  end.

End Js.
Import Js.

(** ** Enumerations imported from the package digicust_types

    The package is not part of the repository.  The helper names three
    members of [FilterCondition] and two of [SortOrder]; every other value
    that can reach the switch statements at run time is kept under a
    constructor of its own. *)

Inductive FilterCondition : Type :=
  | equals
  | greaterThan
  | smallerThan
  | otherCondition (tag : string).

Inductive SortOrder : Type :=
  | ASC
  | DESC
  | otherOrder (tag : string).

(** ** CosmosDbHelper: the builders that do not look at a value *)

(** The dot, the blank and the reserved segment. *)
Definition dot : ascii := "."%char.
Definition blank : ascii := " "%char.

(** [objectToString]: the loop body, then the loop over the segments. *)
Definition accessor (item : string) : string :=
  if String.eqb item "value" then "[" ++ dquote ++ "value" ++ dquote ++ "]"
  else "." ++ item.

Definition objectToString (stringArr : string) : string :=
  forEach (fun result item _ => result ++ accessor item)
          (split dot stringArr) 0 EmptyString.

(** [filterCondition]: [result] stays undefined in the default case. *)
Definition filterCondition (c : FilterCondition) : option string :=
  match c with
  | equals => Some "="
  | greaterThan => Some ">"
  | smallerThan => Some "<"
  | otherCondition _ => None
  end.

(** The two pieces [getFilterSql] reads off a field: [replaced] is the field
    with its first dot turned into a blank, [first] and [second] are the
    pieces at positions 0 and 1 of [replaced] split on blanks ([second] may
    be undefined). *)
Definition replaced (field : string) : string := replace dot " " field.

Definition firstPiece (field : string) : option string :=
  nth_error (split blank (replaced field)) 0.

Definition secondPiece (field : string) : option string :=
  nth_error (split blank (replaced field)) 1.

(** [getSort]: one fragment per sort entry, by position. *)
Record SortItem : Type := { sort_field : string; order : SortOrder }.

Definition getSort (sortArr : list SortItem) : list string :=
  mapi (fun item index =>
          match order item with
          | ASC =>
              if Nat.eqb index 0
              then "ORDER BY backend." ++ sort_field item ++ " ASC"
              else "backend." ++ sort_field item ++ " ASC"
          | DESC =>
              if Nat.eqb index 0
              then "ORDER BY backend." ++ sort_field item ++ " DESC"
              else "backend." ++ sort_field item ++ " DESC"
          | otherOrder _ => EmptyString
          end)
       sortArr 0.

(** [getPropertiesQuery]: the wildcard for an empty list, otherwise the
    accumulated text without its last two characters. *)
Definition getPropertiesQuery (properties : list string) : string :=
  if Nat.eqb (List.length properties) 0 then "*"
  else
    let result :=
      forEach (fun result property _ => result ++ "backend." ++ property ++ ", ")
              properties 0 EmptyString in
    substr0 (String.length result - 2) result.

(** ** Documents, errors and the service's plain data

    [db.container(id).items.query(spec, options)] followed by [fetchAll()] or
    [fetchNext()] either answers with a feed response or throws.  The
    documents of both containers are read through three properties only:
    [modules] (container Project), [module] (the cases) and, to tell rows
    apart, an identifier. *)

Record SqlQuerySpec : Type := {
  query : string;
  parameters : list (string * string)
}.

Record ModuleEntry : Type := {
  type : option string;
  active : bool
}.

Record Item : Type := {
  id : string;
  modules : option (list ModuleEntry);
  module : option string
}.

Record FeedResponse : Type := {
  resources : list Item;
  feed_hasMoreResults : option bool;
  feed_continuationToken : option string
}.

Inductive Error : Type :=
  | StoreError (reason : string)
  | TypeError (message : string).

Inductive Outcome (A : Type) : Type :=
  | Returned (a : A)
  | Thrown (e : Error).
Arguments Returned {A} a.
Arguments Thrown {A} e.

(** [a === b] on values that are a string or undefined. *)
Definition strictEq (a b : option string) : bool :=
  match a, b with
  | Some x, Some y => String.eqb x y
  | None, None => true
  | _, _ => false
  end.

(** [arr.indexOf(x)]: the first position of [x], or -1. *)
Fixpoint indexOf (arr : list (option string)) (x : option string) : Z :=
  match arr with
  | [] => (-1)%Z
  | y :: rest =>
      if strictEq y x then 0%Z
      else let i := indexOf rest x in
           if Z.eqb i (-1) then (-1)%Z else (i + 1)%Z
  end.

(** [x || false] and [x || ""] on a value the store may leave undefined. *)
Definition orFalse (x : option bool) : bool :=
  match x with
  | Some true => true
  | Some false | None => false
  end.

Definition orEmpty (x : option string) : string :=
  match x with
  | Some text => if String.eqb text EmptyString then EmptyString else text
  | None => EmptyString
  end.

(** A parameter with a default value: the default stands in for undefined. *)
Definition orDefault {A : Type} (default : A) (x : option A) : A :=
  match x with
  | Some a => a
  | None => default
  end.

(** [arr.filter(callback)] with a callback that may throw: the first throw
    ends the loop. *)
Fixpoint filterThrowing {A : Type} (keep : A -> Outcome bool) (arr : list A)
    : Outcome (list A) :=
  match arr with
  | [] => Returned []
  | item :: rest =>
      match keep item with
      | Thrown e => Thrown e
      | Returned b =>
          match filterThrowing keep rest with
          | Thrown e => Thrown e
          | Returned kept => Returned (if b then item :: kept else kept)
          end
      end
  end.

(** The optional chain of [getModulePermission],
    [projectPermission?.[0]?.modules?.filter(...).map(...)]: undefined when
    there is no record or the first record has no [modules]. *)
Definition activeModuleTypes (projectPermission : list Item)
    : option (list (option string)) :=
  match nth_error projectPermission 0 with
  | None => None
  | Some record =>
      match modules record with
      | None => None
      | Some entries =>
          Some (List.map type (List.filter (fun it => active it) entries))
      end
  end.

Definition permissionQuery (customerId projectId : string) : SqlQuerySpec :=
  {| query := "SELECT backend.modules from backend WHERE backend.customerId = @customerId AND backend.projectId = @projectId";
     parameters := [("@customerId", customerId); ("@projectId", projectId)] |}.

Definition caseQuery (customerId projectId : string) : SqlQuerySpec :=
  {| query := "SELECT * FROM general WHERE general.customerId = @customerId AND general.projectId = @projectId ORDER BY general.createdAt";
     parameters := [("@customerId", customerId); ("@projectId", projectId)] |}.

Record CaseList : Type := {
  list_result : list Item;
  options : list string;
  list_hasMoreResults : bool;
  list_continuationToken : string
}.

(** The callback of the row filter: [resFilter.indexOf(it.module) !== -1],
    which throws when [resFilter] is undefined. *)
Definition permitted (resFilter : option (list (option string))) (it : Item)
    : Outcome bool :=
  match resFilter with
  | None =>
      Thrown (TypeError "Cannot read properties of undefined (reading 'indexOf')")
  | Some allowed => Returned (negb (Z.eqb (indexOf allowed (module it)) (-1)))
  end.

(** ** A runtime for the worked inputs

    Its numbers are the integers, printed in decimal, and its [toLowerCase]
    lowers the letters A to Z. *)

Definition integerToString (n : Z) : string :=
  NilEmpty.string_of_int (Z.to_int n).

Definition lowerAscii (c : ascii) : ascii :=
  let code := nat_of_ascii c in
  if Nat.leb 65 code && Nat.leb code 90 then ascii_of_nat (code + 32) else c.

Fixpoint lowerLetters (s : string) : string :=
  match s with
  | EmptyString => EmptyString
  | String c rest => String (lowerAscii c) (lowerLetters rest)
  end.

(** ** CosmosDbHelper: the builders that render values

    What the JavaScript runtime decides is left open: the type of numbers with
    the text a template literal gives them, the number 10 (the default page
    limit of the service), and [toLowerCase]. *)

Section Runtime.

Variable number : Type.
Variable numberToString : number -> string.
Variable ten : number.
Variable toLowerCase : string -> string.

(** A filter value: a string, a number or a boolean by its declared type,
    and [undefined], which [getFilterSql] tests for. *)
Inductive Value : Type :=
  | undefined
  | str (s : string)
  | num (n : number)
  | boolean (b : bool).

(** A value written in a template literal. *)
Definition templateOfValue (v : Value) : string :=
  match v with
  | undefined => "undefined"
  | str s => s
  | num n => numberToString n
  | boolean true => "true"
  | boolean false => "false"
  end.

(** [typeof v === "number" || typeof v === "boolean"]. *)
Definition isNumberOrBoolean (v : Value) : bool :=
  match v with
  | num _ | boolean _ => true
  | undefined | str _ => false
  end.

Definition isUndefined (v : Value) : bool :=
  match v with
  | undefined => true
  | _ => false
  end.

Record Filter : Type := {
  filter_field : string;
  condition : FilterCondition;
  value : Value
}.

Record SearchField : Type := {
  search_field : string;
  search_value : string
}.

(** [getFullSearchSql]: empty search terms are skipped. *)
Definition getFullSearchSql (searches : list string) : list string :=
  forEach (fun response search _ =>
             if String.eqb search EmptyString then response
             else push response
                    ("AND LOWER(ToString(backend)) LIKE " ++ dquote ++ "%"
                     ++ toLowerCase search ++ "%" ++ dquote))
          searches 0 [].

(** [getFilterSql]: the callback of the loop, then the loop. *)
Definition filterStep (response : list string) (filter : Filter)
    (index : nat) : list string :=
  let first := firstPiece (filter_field filter) in
  let second := secondPiece (filter_field filter) in
  if strictEqString first "documents" || strictEqString first "submissions"
  then
    push response
      ("JOIN (SELECT VALUE t" ++ indexToString index
       ++ " FROM t" ++ indexToString index
       ++ " IN backend." ++ templateOfOptional first
       ++ " WHERE t" ++ indexToString index ++ "." ++ templateOfOptional second
       ++ " = '" ++ templateOfValue (value filter) ++ "')")
  else if isUndefined (value filter) then
    push response
      ("AND NOT IS_DEFINED(backend" ++ objectToString (filter_field filter)
       ++ ")")
  else
    push response
      ("AND backend" ++ objectToString (filter_field filter)
       ++ " " ++ templateOfOptional (filterCondition (condition filter))
       ++ " " ++ (if isNumberOrBoolean (value filter)
                  then templateOfValue (value filter)
                  else "'" ++ templateOfValue (value filter) ++ "'")).

Definition getFilterSql (filters : list Filter) : list string :=
  forEach filterStep filters 0 [].

(** [getSearchQuery]: every entry adds a clause that ends in a blank. *)
Definition getSearchQuery (search : list SearchField) : string :=
  if Nat.eqb (List.length search) 0 then EmptyString
  else
    forEach (fun result entry _ =>
               result ++ "AND LOWER(backend." ++ search_field entry
               ++ ") LIKE '%" ++ toLowerCase (search_value entry) ++ "%' ")
            search 0 EmptyString.

(** [getAllOptionsQuery]: the five pieces of a composed query. *)
Record OptionsQuery : Type := {
  sorts : string;
  allProperties : string;
  filters : string;
  searchObjectQuery : string;
  searchFieldQuery : string
}.

Definition getAllOptionsQuery (sort : list SortItem) (filter : list Filter)
    (search : list string) (searchFields : list SearchField)
    (properties : list string) : OptionsQuery :=
  let allProperties := getPropertiesQuery properties in
  let sorts := join ", " (getSort sort) in
  let filters :=
    join " " (List.filter (fun item => includes "AND" item)
                          (getFilterSql filter)) in
  let searchFieldQuery := getSearchQuery searchFields in
  let searchObjectQuery := join " " (getFullSearchSql search) in
  {| sorts := sorts;
     allProperties := allProperties;
     filters := filters;
     searchObjectQuery := searchObjectQuery;
     searchFieldQuery := searchFieldQuery |}.

Record FeedOptions : Type := {
  maxItemCount : number;
  continuationToken : string;
  partitionKey : string
}.

Record Database : Type := {
  fetchAll : string -> SqlQuerySpec -> option FeedOptions -> Outcome FeedResponse;
  fetchNext : string -> SqlQuerySpec -> FeedOptions -> Outcome FeedResponse
}.

(** What a call does that its caller can observe besides its result: the
    requests sent to the store and the rows written to the console. *)
Inductive Event : Type :=
  | QueryAll (containerId : string) (spec : SqlQuerySpec)
             (options : option FeedOptions)
  | QueryNext (containerId : string) (spec : SqlQuerySpec)
              (options : FeedOptions)
  | ConsoleLog (rows : list Item).

(** An asynchronous method: it extends the trace of events and returns or
    throws; [await] is the bind, and a throw ends the method.  [settle]
    turns an answer or a throw of the store into the state of the method. *)
Definition Promise (A : Type) : Type :=
  list Event -> Outcome A * list Event.

Definition resolve {A : Type} (a : A) : Promise A :=
  fun trace => (Returned a, trace).

Definition await {A B : Type} (m : Promise A) (k : A -> Promise B)
    : Promise B :=
  fun trace =>
    match m trace with
    | (Returned a, trace') => k a trace'
    | (Thrown e, trace') => (Thrown e, trace')
    end.

Definition emit (e : Event) : Promise unit :=
  fun trace => (Returned tt, (trace ++ [e])%list).

Definition settle {A : Type} (o : Outcome A) : Promise A :=
  fun trace => (o, trace).

Notation "x <- m ;; k" := (await m (fun x => k))
  (at level 61, m at next level, right associativity).

Record CosmosDbHelper : Type := { db : Database }.

(** [queryContainer]: all the rows of a query. *)
Definition queryContainer (this : CosmosDbHelper) (querySpec : SqlQuerySpec)
    (containerId : string) (options : option FeedOptions)
    : Promise (list Item) :=
  _ <- emit (QueryAll containerId querySpec options) ;;
  response <- settle (fetchAll (db this) containerId querySpec options) ;;
  resolve (resources response).

(** [queryContainerNext]: one page of a query. *)
Record NextPage : Type := {
  result : list Item;
  hasMoreResults : option bool;
  next_continuationToken : option string
}.

Definition queryContainerNext (this : CosmosDbHelper)
    (querySpec : SqlQuerySpec) (queryOptions : FeedOptions)
    (containerId : string) : Promise NextPage :=
  _ <- emit (QueryNext containerId querySpec queryOptions) ;;
  response <- settle (fetchNext (db this) containerId querySpec queryOptions) ;;
  resolve {| result := resources response;
             hasMoreResults := feed_hasMoreResults response;
             next_continuationToken := feed_continuationToken response |}.

(** ** CasesService *)

Record CasesService : Type := { cosmosDbHelper : CosmosDbHelper }.

(** [getModulePermission]: the types of the active modules of the first
    record, by [activeModuleTypes]. *)
Definition getModulePermission (this : CasesService)
    (customerId projectId : string) : Promise (option (list (option string))) :=
  projectPermission <-
    queryContainer (cosmosDbHelper this)
                   (permissionQuery customerId projectId) "Project" None ;;
  let modules := activeModuleTypes projectPermission in
  resolve modules.

Definition getCaseList (this : CasesService) (customerId projectId : string)
    (contToken : option string) (pageLimit : option number)
    (sort : option (list SortItem)) (filter : option (list Filter))
    (search : option (list string))
    (searchFields : option (list SearchField))
    (properties : option (list string)) : Promise CaseList :=
  let contToken := orDefault EmptyString contToken in
  let pageLimit := orDefault ten pageLimit in
  let sort := orDefault [] sort in
  let filter := orDefault [] filter in
  let search := orDefault [] search in
  let searchFields := orDefault [] searchFields in
  let properties := orDefault [] properties in
  resFilter <- getModulePermission this customerId projectId ;;
  let composed :=
    getAllOptionsQuery sort filter search searchFields properties in
  page <-
    queryContainerNext (cosmosDbHelper this)
      (caseQuery customerId projectId)
      {| maxItemCount := pageLimit;
         continuationToken := contToken;
         partitionKey := "createdAt" |}
      "testing" ;;
  _ <- emit (ConsoleLog (result page)) ;;
  rows <- settle (filterThrowing (permitted resFilter) (result page)) ;;
  resolve {| list_result := rows;
             options := ["Invoice"; "Waybill"; "Delivery Note";
                         "Order Confirmation"; "Packing List"];
             list_hasMoreResults := orFalse (hasMoreResults page);
             list_continuationToken := orEmpty (next_continuationToken page) |}.

(** ** CosmosDbHelper: [stringToObject]

    The objects it walks and writes are trees of plain objects: a value is
    null, a primitive (undefined, a string, a number or a boolean) or an
    object, held by its own properties in the order they were added.  A
    plain object inherits one property whose [typeof] is "object", __proto__;
    the properties below speak of paths without that segment. *)

#[warnings="-register-all"]
Inductive Any : Type :=
  | null
  | primitive (v : Value)
  | object (props : list (string * Any)).

(** [obj[key]] read, undefined for a missing key, and [obj[key] = v]. *)
Fixpoint getProp (props : list (string * Any)) (key : string) : Any :=
  match props with
  | [] => primitive undefined
  | (k, v) :: rest => if String.eqb k key then v else getProp rest key
  end.

Fixpoint setProp (props : list (string * Any)) (key : string) (v : Any)
    : list (string * Any) :=
  match props with
  | [] => [(key, v)]
  | (k, old) :: rest =>
      if String.eqb k key then (k, v) :: rest
      else (k, old) :: setProp rest key v
  end.

(** [obj[last] = value], where [obj] is an object or null ([None]). *)
Definition assignLast (obj : option (list (string * Any))) (last : string)
    (value : Any) : Outcome (list (string * Any)) :=
  match obj with
  | Some props => Returned (setProp props last value)
  | None =>
      Thrown (TypeError
                ("Cannot set properties of null (setting '" ++ last ++ "')"))
  end.

(** The loop [while ((part = parts.shift()))] followed by the assignment:
    an empty part is falsy and ends the loop; a property whose [typeof] is
    not "object" is replaced by a new empty object; null has [typeof]
    "object", is kept, and the next access to it throws.  The result is the
    object [obj] after the writes. *)
Fixpoint whileShift (parts : list string) (last : string) (value : Any)
    (obj : option (list (string * Any))) : Outcome (list (string * Any)) :=
  match parts with
  | [] => assignLast obj last value
  | part :: rest =>
      if String.eqb part EmptyString then assignLast obj last value
      else
        match obj with
        | None =>
            Thrown (TypeError
                      ("Cannot read properties of null (reading '" ++ part
                       ++ "')"))
        | Some props =>
            let next :=
              match getProp props part with
              | object child => Some child
              | null => None
              | primitive _ => Some []
              end in
            match whileShift rest last value next with
            | Returned child => Returned (setProp props part (object child))
            | Thrown e => Thrown e
            end
        end
  end.

(** [stringToObject]: [last] is the popped piece of the split path. *)
Definition stringToObject (path : string) (value : Any)
    (obj : list (string * Any)) : Outcome (list (string * Any)) :=
  let parts := split dot path in
  let last := List.last parts "undefined" in
  whileShift (List.removelast parts) last value (Some obj).

(** Reading [v[s1][s2]...] along a list of keys through the own properties
    of objects.  A key read off anything else gives undefined here; in
    JavaScript a primitive has properties of its own and reading off null or
    undefined throws, so a result other than undefined is what tells that
    every key was read off an object and found among its own properties. *)
Fixpoint readPath (keys : list string) (v : Any) : Any :=
  match keys with
  | [] => v
  | key :: rest =>
      match v with
      | object props => readPath rest (getProp props key)
      | null | primitive _ => primitive undefined
      end
  end.

(** Two lists of keys part ways: they agree up to a position where both have
    a key and the keys differ. *)
Inductive partWays : list string -> list string -> Prop :=
  | partWays_here (a b : string) (q s : list string) :
      a <> b -> partWays (a :: q) (b :: s)
  | partWays_later (a : string) (q s : list string) :
      partWays q s -> partWays (a :: q) (a :: s).

(** ** Data for the worked inputs *)

(** A store with one permission record (Invoice active, Waybill not) and a
    page of two cases; a store without any permission record and the same
    page. *)
Definition invoiceCase : Item :=
  {| id := "case-1"; modules := None; module := Some "Invoice" |}.

Definition waybillCase : Item :=
  {| id := "case-2"; modules := None; module := Some "Waybill" |}.

Definition projectRecord : Item :=
  {| id := "project-1";
     modules := Some [ {| type := Some "Invoice"; active := true |};
                       {| type := Some "Waybill"; active := false |} ];
     module := None |}.

Definition casePage : FeedResponse :=
  {| resources := [invoiceCase; waybillCase];
     feed_hasMoreResults := None;
     feed_continuationToken := None |}.

Definition feedOf (rows : list Item) : FeedResponse :=
  {| resources := rows;
     feed_hasMoreResults := None;
     feed_continuationToken := None |}.

Definition storeWithRecord : CasesService :=
  {| cosmosDbHelper :=
       {| db := {| fetchAll := fun _ _ _ => Returned (feedOf [projectRecord]);
                   fetchNext := fun _ _ _ => Returned casePage |} |} |}.

Definition storeWithoutRecord : CasesService :=
  {| cosmosDbHelper :=
       {| db := {| fetchAll := fun _ _ _ => Returned (feedOf []);
                   fetchNext := fun _ _ _ => Returned casePage |} |} |}.

(** Criteria for the worked inputs. *)
Definition statusContainsOpen : Filter :=
  {| filter_field := "status";
     condition := otherCondition "contains";
     value := str "open" |}.

Definition statusIsOpen : Filter :=
  {| filter_field := "status"; condition := equals; value := str "open" |}.

Definition amountAboveTen : Filter :=
  {| filter_field := "amount.value";
     condition := greaterThan;
     value := num ten |}.

Definition archivedUndefined : Filter :=
  {| filter_field := "meta.archived";
     condition := equals;
     value := undefined |}.

Definition documentTypeUndefined : Filter :=
  {| filter_field := "documents.type";
     condition := equals;
     value := undefined |}.

Definition documentTypeBrand : Filter :=
  {| filter_field := "documents.type";
     condition := equals;
     value := str "BRAND" |}.

Definition documentNested : Filter :=
  {| filter_field := "documents.a.b"; condition := equals; value := str "x" |}.

(** Stores that fail: on the permission lookup, and on the page request. *)
Definition storePermissionDown : CasesService :=
  {| cosmosDbHelper :=
       {| db := {| fetchAll := fun _ _ _ => Thrown (StoreError "TooManyRequests");
                   fetchNext := fun _ _ _ => Returned casePage |} |} |}.

Definition storePageDown : CasesService :=
  {| cosmosDbHelper :=
       {| db := {| fetchAll := fun _ _ _ => Returned (feedOf [projectRecord]);
                   fetchNext :=
                     fun _ _ _ => Thrown (StoreError "TooManyRequests") |} |} |}.

(** An object with a nested object, a null and a primitive. *)
Definition caseObject : list (string * Any) :=
  [ ("meta", object [("kind", primitive (str "invoice"))]);
    ("owner", null);
    ("total", primitive (num ten)) ].

(** * Properties *)

(** ** Splitting, replacing and looping *)

Lemma split_not_nil (sep : ascii) (s : string) : split sep s <> [].
Proof.
  destruct s as [|c s]; simpl; [discriminate|].
  destruct (Ascii.eqb c sep); [discriminate|].
  destruct (split sep s); discriminate.
Qed.

Lemma split_lacks (sep : ascii) (s : string) :
  lacks sep s = true -> split sep s = [s].
Proof.
  induction s as [|c s IH]; simpl; intros H; [reflexivity|].
  apply andb_prop in H as [Hc Hs].
  apply negb_true_iff in Hc. rewrite Hc, (IH Hs). reflexivity.
Qed.

Lemma split_app (sep : ascii) (a rest : string) :
  lacks sep a = true ->
  split sep (a ++ String sep rest) = a :: split sep rest.
Proof.
  induction a as [|c a IH]; simpl; intros H.
  - rewrite Ascii.eqb_refl. reflexivity.
  - apply andb_prop in H as [Hc Ha].
    apply negb_true_iff in Hc. rewrite Hc, (IH Ha). reflexivity.
Qed.

Lemma replace_app (pat : ascii) (by_ a rest : string) :
  lacks pat a = true ->
  replace pat by_ (a ++ String pat rest) = a ++ by_ ++ rest.
Proof.
  induction a as [|c a IH]; simpl; intros H.
  - rewrite Ascii.eqb_refl. reflexivity.
  - apply andb_prop in H as [Hc Ha].
    apply negb_true_iff in Hc. rewrite Hc, (IH Ha). reflexivity.
Qed.

Lemma replace_lacks (pat : ascii) (by_ s : string) :
  lacks pat s = true -> replace pat by_ s = s.
Proof.
  induction s as [|c s IH]; simpl; intros H; [reflexivity|].
  apply andb_prop in H as [Hc Hs].
  apply negb_true_iff in Hc. rewrite Hc, (IH Hs). reflexivity.
Qed.

Lemma append_assoc (a b c : string) : (a ++ b) ++ c = a ++ b ++ c.
Proof. induction a as [|x a IH]; simpl; [|rewrite IH]; reflexivity. Qed.

Lemma append_empty_r (a : string) : a ++ EmptyString = a.
Proof. induction a as [|x a IH]; simpl; [|rewrite IH]; reflexivity. Qed.

(** Splitting undoes joining, when no piece holds the separator. *)
Lemma split_join (sep : ascii) (pieces : list string) :
  pieces <> [] ->
  Forall (fun piece => lacks sep piece = true) pieces ->
  split sep (join (String sep EmptyString) pieces) = pieces.
Proof.
  intros Hne Hall. induction Hall as [|piece rest Hp Hrest IH].
  - contradiction.
  - destruct rest as [|next rest'].
    + simpl. apply split_lacks, Hp.
    + change (join (String sep EmptyString) (piece :: next :: rest'))
        with (piece ++ String sep EmptyString
                    ++ join (String sep EmptyString) (next :: rest')).
      change (String sep EmptyString
                ++ join (String sep EmptyString) (next :: rest'))
        with (String sep (join (String sep EmptyString) (next :: rest'))).
      rewrite (split_app _ _ _ Hp), IH; [reflexivity|discriminate].
Qed.

(** A loop whose body appends to a text local builds the concatenation. *)
Lemma forEach_append {A : Type} (g : A -> string) (arr : list A)
    (index : nat) (acc : string) :
  forEach (fun result item _ => result ++ g item) arr index acc
  = acc ++ String.concat EmptyString (List.map g arr).
Proof.
  revert index acc. induction arr as [|item rest IH]; intros index acc.
  - simpl. symmetry. apply append_empty_r.
  - simpl forEach. rewrite IH. rewrite append_assoc. f_equal.
    destruct rest as [|next rest']; simpl.
    + rewrite append_empty_r. reflexivity.
    + reflexivity.
Qed.

(** A loop whose body pushes one element per item builds the indexed map. *)
Lemma forEach_push {A B : Type} (f : list B -> A -> nat -> list B)
    (g : A -> nat -> B) :
  (forall acc item index, f acc item index = push acc (g item index)) ->
  forall arr index acc,
    forEach f arr index acc = (acc ++ mapi g arr index)%list.
Proof.
  intros Hf arr. induction arr as [|item rest IH]; intros index acc; simpl.
  - symmetry. apply app_nil_r.
  - rewrite IH, Hf. unfold push. rewrite <- app_assoc. reflexivity.
Qed.

Lemma mapi_nth_error {A B : Type} (g : A -> nat -> B) (arr : list A) :
  forall start k item,
    nth_error arr k = Some item ->
    nth_error (mapi g arr start) k = Some (g item (start + k)).
Proof.
  induction arr as [|x rest IH]; intros start k item H.
  - destruct k; discriminate.
  - destruct k as [|k]; simpl in *.
    + inversion H; subst. rewrite Nat.add_0_r. reflexivity.
    + rewrite (IH (S start) k item H). f_equal. f_equal. lia.
Qed.

Lemma mapi_length {A B : Type} (g : A -> nat -> B) (arr : list A) :
  forall start, List.length (mapi g arr start) = List.length arr.
Proof.
  induction arr as [|x rest IH]; intros start; simpl; [|rewrite IH];
    reflexivity.
Qed.

(** ** The path resolver *)

Lemma objectToString_concat (stringArr : string) :
  objectToString stringArr
  = String.concat EmptyString (List.map accessor (split dot stringArr)).
Proof. unfold objectToString. rewrite forEach_append. reflexivity. Qed.

(** C8.  A dotted path, given by its segments (at least one, none holding a
    dot), resolves to the concatenation, in order and with nothing in
    between, of one accessor per segment: the bracket-quoted accessor for the
    segment value, and a dot followed by the segment for any other; the path
    a.value.b resolves to .a, the bracket-quoted value, then .b. *)
Theorem objectToString_segments (segments : list string) :
  segments <> [] ->
  Forall (fun segment => lacks dot segment = true) segments ->
  objectToString (join "." segments)
  = String.concat EmptyString
      (List.map (fun segment =>
                   if String.eqb segment "value"
                   then "[" ++ dquote ++ "value" ++ dquote ++ "]"
                   else "." ++ segment)
                segments)
  /\ objectToString "a.value.b" = ".a[" ++ dquote ++ "value" ++ dquote ++ "].b".
Proof.
  intros Hne Hall. split; [|reflexivity].
  rewrite objectToString_concat.
  change "." with (String dot EmptyString).
  rewrite (split_join dot segments Hne Hall). reflexivity.
Qed.

(** ** The pieces the filter builder reads off a field *)

Lemma firstPiece_dotted (a rest : string) :
  lacks dot a = true -> lacks blank a = true ->
  firstPiece (a ++ "." ++ rest) = Some a.
Proof.
  intros Hdot Hblank. unfold firstPiece, replaced.
  change ("." ++ rest) with (String dot rest).
  rewrite (replace_app dot " " a rest Hdot).
  change (" " ++ rest) with (String blank rest).
  rewrite (split_app blank a rest Hblank). reflexivity.
Qed.

Lemma secondPiece_dotted (a rest : string) :
  lacks dot a = true -> lacks blank a = true -> lacks blank rest = true ->
  secondPiece (a ++ "." ++ rest) = Some rest.
Proof.
  intros Hdot Hblank Hrest. unfold secondPiece, replaced.
  change ("." ++ rest) with (String dot rest).
  rewrite (replace_app dot " " a rest Hdot).
  change (" " ++ rest) with (String blank rest).
  rewrite (split_app blank a rest Hblank), (split_lacks blank rest Hrest).
  reflexivity.
Qed.

(** On a field without blanks, [first] is the first dot-separated segment. *)
Lemma firstPiece_head_segment (field : string) :
  lacks blank field = true ->
  firstPiece field = nth_error (split dot field) 0.
Proof.
  unfold firstPiece, replaced.
  induction field as [|c field IH]; intros H; [reflexivity|].
  simpl in H. apply andb_prop in H as [Hc Hfield].
  apply negb_true_iff in Hc. specialize (IH Hfield).
  cbn [replace split].
  destruct (Ascii.eqb c dot) eqn:Hd.
  - reflexivity.
  - cbn [split]. rewrite Hc.
    destruct (split blank (replace dot " " field)) as [|p ps] eqn:E1;
      [exfalso; exact (split_not_nil _ _ E1)|].
    destruct (split dot field) as [|q qs] eqn:E2;
      [exfalso; exact (split_not_nil _ _ E2)|].
    simpl in IH. inversion IH; subst. reflexivity.
Qed.

Lemma strictEqString_differs (a : option string) (b : string) :
  a <> Some b -> strictEqString a b = false.
Proof.
  intros H. destruct a as [text|]; simpl; [|reflexivity].
  apply String.eqb_neq. intros ->. apply H. reflexivity.
Qed.

Lemma isUndefined_defined (v : Value) : v <> undefined -> isUndefined v = false.
Proof. destruct v; simpl; intros H; [exfalso; apply H|..]; reflexivity. Qed.

(** ** The filter builder: one fragment per criterion, in order *)

Lemma filterStep_push (response : list string) (filter : Filter)
    (index : nat) :
  filterStep response filter index
  = push response (nth 0 (filterStep [] filter index) EmptyString).
Proof.
  unfold filterStep.
  destruct (strictEqString _ "documents" || strictEqString _ "submissions");
    [reflexivity|].
  destruct (isUndefined (value filter)); reflexivity.
Qed.

Lemma getFilterSql_mapi (filters : list Filter) :
  getFilterSql filters
  = mapi (fun filter index => nth 0 (filterStep [] filter index) EmptyString)
         filters 0.
Proof.
  unfold getFilterSql.
  rewrite (forEach_push filterStep _ filterStep_push). reflexivity.
Qed.

Lemma getFilterSql_nth (filters : list Filter) (index : nat)
    (filter : Filter) :
  nth_error filters index = Some filter ->
  nth_error (getFilterSql filters) index
  = Some (nth 0 (filterStep [] filter index) EmptyString).
Proof.
  intros H. rewrite getFilterSql_mapi.
  rewrite (mapi_nth_error _ filters 0 index filter H). reflexivity.
Qed.

Lemma getFilterSql_length (filters : list Filter) :
  List.length (getFilterSql filters) = List.length filters.
Proof. rewrite getFilterSql_mapi. apply mapi_length. Qed.

Lemma filterStep_where (filter : Filter) (index : nat) :
  firstPiece (filter_field filter) <> Some "documents" ->
  firstPiece (filter_field filter) <> Some "submissions" ->
  filterStep [] filter index
  = if isUndefined (value filter)
    then ["AND NOT IS_DEFINED(backend" ++ objectToString (filter_field filter)
          ++ ")"]
    else ["AND backend" ++ objectToString (filter_field filter)
          ++ " " ++ templateOfOptional (filterCondition (condition filter))
          ++ " " ++ (if isNumberOrBoolean (value filter)
                     then templateOfValue (value filter)
                     else "'" ++ templateOfValue (value filter) ++ "'")].
Proof.
  intros Hd Hs. unfold filterStep.
  rewrite (strictEqString_differs _ _ Hd), (strictEqString_differs _ _ Hs).
  destruct (isUndefined (value filter)); reflexivity.
Qed.

Lemma includes_prefix (needle s : string) :
  includes needle (needle ++ s) = true.
Proof.
  assert (Hp : String.prefix needle (needle ++ s) = true).
  { induction needle as [|c needle IH]; simpl; [destruct s; reflexivity|].
    destruct (ascii_dec c c) as [_|Hc]; [exact IH|exfalso; apply Hc; reflexivity]. }
  destruct (needle ++ s); simpl in *; rewrite Hp; reflexivity.
Qed.

(** C4, amended.  A criterion at any position whose first piece (the field up
    to its first dot or blank) is neither documents nor submissions and whose
    value is defined yields, at the same position of the result, the text
    AND backend, the resolved path, a blank, the operator
    symbol (=, > or <; the text the template gives an undefined symbol for any
    other operator), a blank, and the value: bare for a number or a boolean,
    between single quotes and otherwise unchanged for a string. *)
Theorem getFilterSql_where_fragment (filters : list Filter) (index : nat)
    (filter : Filter) :
  nth_error filters index = Some filter ->
  firstPiece (filter_field filter) <> Some "documents" ->
  firstPiece (filter_field filter) <> Some "submissions" ->
  value filter <> undefined ->
  nth_error (getFilterSql filters) index
  = Some ("AND backend" ++ objectToString (filter_field filter)
          ++ " " ++ match condition filter with
                    | equals => "="
                    | greaterThan => ">"
                    | smallerThan => "<"
                    | otherCondition _ => "undefined"
                    end
          ++ " " ++ match value filter with
                    | num n => numberToString n
                    | boolean true => "true"
                    | boolean false => "false"
                    | str text => "'" ++ text ++ "'"
                    | undefined => "'undefined'"
                    end).
Proof.
  intros Hnth Hd Hs Hv.
  rewrite (getFilterSql_nth _ _ _ Hnth), (filterStep_where _ _ Hd Hs).
  rewrite (isUndefined_defined _ Hv). cbn [nth].
  destruct (condition filter); destruct (value filter) as [| text | n | [|]];
    try reflexivity; exfalso; apply Hv; reflexivity.
Qed.

(** C5, amended.  A criterion at position index whose field is documents or
    submissions, a dot, and a rest without blanks yields the JOIN fragment
    that binds the alias t<index> to that collection and compares the whole
    rest of the field (every segment after the first, dots included) with the
    text of the value, unchanged, between single quotes. *)
Theorem getFilterSql_join_fragment (filters : list Filter) (index : nat)
    (collection rest : string) (c : FilterCondition) (v : Value) :
  collection = "documents" \/ collection = "submissions" ->
  lacks blank rest = true ->
  nth_error filters index
  = Some {| filter_field := collection ++ "." ++ rest;
            condition := c; value := v |} ->
  nth_error (getFilterSql filters) index
  = Some ("JOIN (SELECT VALUE t" ++ indexToString index
          ++ " FROM t" ++ indexToString index
          ++ " IN backend." ++ collection
          ++ " WHERE t" ++ indexToString index ++ "." ++ rest
          ++ " = '" ++ templateOfValue v ++ "')").
Proof.
  intros Hc Hrest Hnth.
  rewrite (getFilterSql_nth _ _ _ Hnth). unfold filterStep.
  cbn [filter_field value].
  assert (Hfirst : firstPiece (collection ++ "." ++ rest) = Some collection)
    by (destruct Hc as [-> | ->]; apply firstPiece_dotted; reflexivity).
  assert (Hsecond : secondPiece (collection ++ "." ++ rest) = Some rest)
    by (destruct Hc as [-> | ->]; apply secondPiece_dotted;
        reflexivity || assumption).
  rewrite Hfirst, Hsecond.
  destruct Hc as [-> | ->]; reflexivity.
Qed.

(** C6, amended.  A criterion at any position whose value is undefined and
    whose first piece is neither documents nor submissions yields exactly the
    text AND NOT IS_DEFINED(backend, the resolved path, and a closing
    parenthesis: no value is rendered. *)
Theorem getFilterSql_undefined_fragment (filters : list Filter) (index : nat)
    (filter : Filter) :
  nth_error filters index = Some filter ->
  value filter = undefined ->
  firstPiece (filter_field filter) <> Some "documents" ->
  firstPiece (filter_field filter) <> Some "submissions" ->
  nth_error (getFilterSql filters) index
  = Some ("AND NOT IS_DEFINED(backend" ++ objectToString (filter_field filter)
          ++ ")").
Proof.
  intros Hnth Hv Hd Hs.
  rewrite (getFilterSql_nth _ _ _ Hnth), (filterStep_where _ _ Hd Hs).
  rewrite Hv. reflexivity.
Qed.

(** C2, amended.  For a criterion whose first piece is neither documents nor
    submissions, whose value is defined and whose operator is none of equals,
    greaterThan and smallerThan, the condition encoder returns undefined and
    the criterion still yields its fragment, with the text undefined where the
    operator symbol stands; the result has one fragment per criterion, and
    the composer keeps this one. *)
Theorem getFilterSql_unknown_condition (filters : list Filter) (index : nat)
    (filter : Filter) (tag : string) :
  nth_error filters index = Some filter ->
  firstPiece (filter_field filter) <> Some "documents" ->
  firstPiece (filter_field filter) <> Some "submissions" ->
  value filter <> undefined ->
  condition filter = otherCondition tag ->
  let fragment :=
    "AND backend" ++ objectToString (filter_field filter) ++ " undefined "
    ++ (if isNumberOrBoolean (value filter)
        then templateOfValue (value filter)
        else "'" ++ templateOfValue (value filter) ++ "'") in
  filterCondition (condition filter) = None
  /\ nth_error (getFilterSql filters) index = Some fragment
  /\ List.length (getFilterSql filters) = List.length filters
  /\ In fragment
        (List.filter (fun item => includes "AND" item) (getFilterSql filters)).
Proof.
  intros Hnth Hd Hs Hv Hc fragment.
  assert (Hfrag : nth_error (getFilterSql filters) index = Some fragment).
  { rewrite (getFilterSql_nth _ _ _ Hnth), (filterStep_where _ _ Hd Hs).
    rewrite (isUndefined_defined _ Hv), Hc. reflexivity. }
  repeat split.
  - rewrite Hc. reflexivity.
  - exact Hfrag.
  - apply getFilterSql_length.
  - apply filter_In. split.
    + eapply nth_error_In. exact Hfrag.
    + unfold fragment. change ("AND backend" ++ ?x) with ("AND" ++ " backend" ++ x).
      apply includes_prefix.
Qed.

(** ** The sort builder and the composer *)


(** ** The list service *)

Lemma filterThrowing_permitted (allowed : list (option string))
    (rows : list Item) :
  filterThrowing (permitted (Some allowed)) rows
  = Returned (List.filter
                (fun it => negb (Z.eqb (indexOf allowed (module it)) (-1)))
                rows).
Proof.
  induction rows as [|row rows IH]; simpl; [reflexivity|].
  rewrite IH. reflexivity.
Qed.

Lemma filterThrowing_undefined (row : Item) (rows : list Item) :
  filterThrowing (permitted None) (row :: rows)
  = Thrown (TypeError "Cannot read properties of undefined (reading 'indexOf')").
Proof. reflexivity. Qed.

(** What one call does, by the answers of the store: the two requests it
    sends, in order, the rows it logs, and its result. *)
Lemma getCaseList_run (this : CasesService) (customerId projectId : string)
    (contToken : option string) (pageLimit : option number)
    (sort : option (list SortItem)) (filter : option (list Filter))
    (search : option (list string)) (searchFields : option (list SearchField))
    (properties : option (list string)) (trace : list Event) :
  let store := db (cosmosDbHelper this) in
  let feedOptions :=
    {| maxItemCount := orDefault ten pageLimit;
       continuationToken := orDefault EmptyString contToken;
       partitionKey := "createdAt" |} in
  let first := QueryAll "Project" (permissionQuery customerId projectId) None in
  let second :=
    QueryNext "testing" (caseQuery customerId projectId) feedOptions in
  getCaseList this customerId projectId contToken pageLimit sort filter search
              searchFields properties trace
  = match fetchAll store "Project" (permissionQuery customerId projectId) None
    with
    | Thrown e => (Thrown e, (trace ++ [first])%list)
    | Returned record =>
        match fetchNext store "testing" (caseQuery customerId projectId)
                        feedOptions with
        | Thrown e => (Thrown e, (trace ++ [first; second])%list)
        | Returned response =>
            (match filterThrowing
                     (permitted (activeModuleTypes (resources record)))
                     (resources response) with
             | Thrown e => Thrown e
             | Returned rows =>
                 Returned
                   {| list_result := rows;
                      options := ["Invoice"; "Waybill"; "Delivery Note";
                                  "Order Confirmation"; "Packing List"];
                      list_hasMoreResults :=
                        orFalse (feed_hasMoreResults response);
                      list_continuationToken :=
                        orEmpty (feed_continuationToken response) |}
             end,
             (trace ++ [first; second; ConsoleLog (resources response)])%list)
        end
    end.
Proof.
  cbv zeta.
  unfold getCaseList, getModulePermission, queryContainer, queryContainerNext,
    await, emit, settle, resolve.
  destruct (fetchAll _ _ _ _) as [record|e]; [|reflexivity].
  destruct (fetchNext _ _ _ _) as [response|e];
    [|rewrite <- app_assoc; reflexivity].
  cbn [result hasMoreResults next_continuationToken].
  rewrite <- !app_assoc. cbn [app].
  destruct (filterThrowing _ _); reflexivity.
Qed.

Lemma orFalse_verbatim (x : option bool) :
  orFalse x = match x with Some b => b | None => false end.
Proof. destruct x as [[|]|]; reflexivity. Qed.

Lemma orEmpty_verbatim (x : option string) :
  orEmpty x = match x with Some text => text | None => EmptyString end.
Proof.
  destruct x as [text|]; simpl; [|reflexivity].
  destruct (String.eqb text EmptyString) eqn:E; [|reflexivity].
  apply String.eqb_eq in E. symmetry. exact E.
Qed.

(** C9.  When the store answers both requests of a call, the request for the
    page carries the page limit and the cursor the caller gave (10 and the
    empty cursor when the caller gave none), the page the call returns carries
    the flag and the cursor of the answer as they are, false and the empty
    text standing in for an undefined one, and the call does return a page
    whenever the permitted modules are defined or the answer has no row. *)
Theorem getCaseList_paging (this : CasesService)
    (customerId projectId : string)
    (contToken : option string) (pageLimit : option number)
    (sort : option (list SortItem)) (filter : option (list Filter))
    (search : option (list string)) (searchFields : option (list SearchField))
    (properties : option (list string)) (record response : FeedResponse) :
  let feedOptions :=
    {| maxItemCount := match pageLimit with Some limit => limit | None => ten end;
       continuationToken :=
         match contToken with Some cursor => cursor | None => EmptyString end;
       partitionKey := "createdAt" |} in
  fetchAll (db (cosmosDbHelper this)) "Project"
           (permissionQuery customerId projectId) None = Returned record ->
  fetchNext (db (cosmosDbHelper this)) "testing"
            (caseQuery customerId projectId) feedOptions = Returned response ->
  let run :=
    getCaseList this customerId projectId contToken pageLimit sort filter
                search searchFields properties [] in
  snd run
  = [QueryAll "Project" (permissionQuery customerId projectId) None;
     QueryNext "testing" (caseQuery customerId projectId) feedOptions;
     ConsoleLog (resources response)]
  /\ (forall page,
        fst run = Returned page ->
        list_hasMoreResults page
        = match feed_hasMoreResults response with
          | Some flag => flag
          | None => false
          end
        /\ list_continuationToken page
           = match feed_continuationToken response with
             | Some cursor => cursor
             | None => EmptyString
             end)
  /\ (activeModuleTypes (resources record) <> None
      \/ resources response = [] ->
      exists page, fst run = Returned page).
Proof.
  intros feedOptions Hall Hnext run.
  pose proof (getCaseList_run this customerId projectId contToken pageLimit
                sort filter search searchFields properties []) as Hrun.
  cbv zeta in Hrun. fold run in Hrun.
  change (orDefault ten pageLimit)
    with (match pageLimit with Some limit => limit | None => ten end) in Hrun.
  change (orDefault EmptyString contToken)
    with (match contToken with Some cursor => cursor | None => EmptyString end)
    in Hrun.
  fold feedOptions in Hrun. rewrite Hall, Hnext in Hrun.
  rewrite Hrun. cbn [fst snd app]. split; [reflexivity|]. split.
  - intros page Hpage.
    destruct (filterThrowing _ _) as [rows|e]; [|discriminate].
    inversion Hpage; subst page. cbn [list_hasMoreResults list_continuationToken].
    rewrite orFalse_verbatim, orEmpty_verbatim. split; reflexivity.
  - intros [Hdefined | Hempty].
    + destruct (activeModuleTypes (resources record)) as [allowed|];
        [|exfalso; apply Hdefined; reflexivity].
      rewrite filterThrowing_permitted. eexists. reflexivity.
    + rewrite Hempty. cbn [filterThrowing]. eexists. reflexivity.
Qed.

(** C10.  Two calls that agree on the service (hence on every answer of the
    store), the customer, the project, the cursor and the page limit behave
    alike whatever their sort, filter, search, searchFields and properties
    arguments are: same trace, same result or throw.  The only page request a
    call sends carries the fixed query of [caseQuery]. *)
Theorem getCaseList_ignores_criteria (this : CasesService)
    (customerId projectId : string)
    (contToken : option string) (pageLimit : option number)
    (sort sort' : option (list SortItem))
    (filter filter' : option (list Filter))
    (search search' : option (list string))
    (searchFields searchFields' : option (list SearchField))
    (properties properties' : option (list string)) (trace : list Event) :
  getCaseList this customerId projectId contToken pageLimit sort filter search
              searchFields properties trace
  = getCaseList this customerId projectId contToken pageLimit sort' filter'
                search' searchFields' properties' trace
  /\ forall containerId spec feedOptions,
       In (QueryNext containerId spec feedOptions)
          (snd (getCaseList this customerId projectId contToken pageLimit sort
                            filter search searchFields properties [])) ->
       containerId = "testing"
       /\ parameters spec
          = [("@customerId", customerId); ("@projectId", projectId)]
       /\ query spec
          = "SELECT * FROM general WHERE general.customerId = @customerId AND general.projectId = @projectId ORDER BY general.createdAt".
Proof.
  split.
  - rewrite !getCaseList_run. reflexivity.
  - intros containerId spec feedOptions.
    rewrite getCaseList_run. cbv zeta.
    destruct (fetchAll _ _ _ _) as [record|e].
    + destruct (fetchNext _ _ _ _) as [response|e]; cbn [snd app In];
        intros [H | [H | H]]; try discriminate H;
        try (inversion H; subst; repeat split; reflexivity);
        try (destruct H as [H | H]; [discriminate H | destruct H]);
        try destruct H.
    + cbn [snd app In]. intros [H | H]; [discriminate H | destruct H].
Qed.

(** With a permission record whose modules are all inactive, the permitted
    set is the empty array and every row of the page is filtered out. *)
Lemma getCaseList_nothing_permitted (this : CasesService)
    (customerId projectId : string)
    (contToken : option string) (pageLimit : option number)
    (sort : option (list SortItem)) (filter : option (list Filter))
    (search : option (list string)) (searchFields : option (list SearchField))
    (properties : option (list string)) (record response : FeedResponse) :
  fetchAll (db (cosmosDbHelper this)) "Project"
           (permissionQuery customerId projectId) None = Returned record ->
  fetchNext (db (cosmosDbHelper this)) "testing"
            (caseQuery customerId projectId)
            {| maxItemCount := orDefault ten pageLimit;
               continuationToken := orDefault EmptyString contToken;
               partitionKey := "createdAt" |} = Returned response ->
  activeModuleTypes (resources record) = Some [] ->
  exists page,
    fst (getCaseList this customerId projectId contToken pageLimit sort filter
                     search searchFields properties []) = Returned page
    /\ list_result page = [].
Proof.
  intros Hall Hnext Hnone. rewrite getCaseList_run. cbv zeta.
  rewrite Hall, Hnext, Hnone, filterThrowing_permitted. cbn [fst].
  eexists. split; [reflexivity|]. cbn [list_result].
  induction (resources response) as [|row rows IH]; [reflexivity|exact IH].
Qed.

(** Without a permission record the permitted set is undefined, and the call
    throws as soon as the page has a row. *)
Lemma getCaseList_no_record (this : CasesService)
    (customerId projectId : string)
    (contToken : option string) (pageLimit : option number)
    (sort : option (list SortItem)) (filter : option (list Filter))
    (search : option (list string)) (searchFields : option (list SearchField))
    (properties : option (list string)) (record response : FeedResponse)
    (row : Item) (rows : list Item) :
  fetchAll (db (cosmosDbHelper this)) "Project"
           (permissionQuery customerId projectId) None = Returned record ->
  fetchNext (db (cosmosDbHelper this)) "testing"
            (caseQuery customerId projectId)
            {| maxItemCount := orDefault ten pageLimit;
               continuationToken := orDefault EmptyString contToken;
               partitionKey := "createdAt" |} = Returned response ->
  resources record = [] ->
  resources response = row :: rows ->
  fst (getCaseList this customerId projectId contToken pageLimit sort filter
                   search searchFields properties [])
  = Thrown (TypeError "Cannot read properties of undefined (reading 'indexOf')").
Proof.
  intros Hall Hnext Hnone Hrows. rewrite getCaseList_run. cbv zeta.
  rewrite Hall, Hnext, Hnone, Hrows. reflexivity.
Qed.

(** * Further properties of the helper *)

(** ** Projection and search builders *)

Lemma length_append (a b : string) :
  String.length (a ++ b) = String.length a + String.length b.
Proof. induction a as [|c a IH]; simpl; [|rewrite IH]; reflexivity. Qed.

Lemma substring_append (a b : string) :
  String.substring 0 (String.length a) (a ++ b) = a.
Proof.
  induction a as [|c a IH]; simpl.
  - destruct b; reflexivity.
  - rewrite IH. reflexivity.
Qed.

Lemma concat_trailing (f : string -> string) (sep : string)
    (items : list string) :
  items <> [] ->
  String.concat EmptyString (List.map (fun item => f item ++ sep) items)
  = String.concat sep (List.map f items) ++ sep.
Proof.
  induction items as [|item rest IH]; intros Hne; [contradiction|].
  destruct rest as [|next rest'].
  - reflexivity.
  - change (String.concat EmptyString
              (List.map (fun item => f item ++ sep) (item :: next :: rest')))
      with (EmptyString ++ (f item ++ sep) ++ EmptyString
              ++ String.concat EmptyString
                   (List.map (fun item => f item ++ sep) (next :: rest'))).
    cbn [append]. rewrite IH by discriminate.
    change (String.concat sep (List.map f (item :: next :: rest')))
      with (f item ++ sep ++ String.concat sep (List.map f (next :: rest'))).
    rewrite !append_assoc. reflexivity.
Qed.

(** X1.  For a list with at least one property, the projection is the
    properties, each behind the root backend and a dot, separated by a comma
    and a blank, with nothing after the last one. *)
Theorem getPropertiesQuery_joined (properties : list string) :
  properties <> [] ->
  getPropertiesQuery properties
  = String.concat ", "
      (List.map (fun property => "backend." ++ property) properties).
Proof.
  intros Hne. unfold getPropertiesQuery.
  destruct properties as [|property rest]; [contradiction|].
  cbn [List.length Nat.eqb].
  rewrite (forEach_append (fun property => "backend." ++ property ++ ", ")).
  cbn [append].
  rewrite (concat_trailing (fun property => "backend." ++ property) ", ")
    by discriminate.
  unfold substr0. rewrite length_append. cbn [String.length].
  replace (String.length
             (String.concat ", "
                (List.map (fun property => "backend." ++ property)
                          (property :: rest))) + 2 - 2)
    with (String.length
            (String.concat ", "
               (List.map (fun property => "backend." ++ property)
                         (property :: rest)))) by lia.
  apply substring_append.
Qed.

Lemma forEach_push_unless {A B : Type} (skip : A -> bool) (g : A -> B)
    (arr : list A) :
  forall index acc,
    forEach (fun response item (_ : nat) =>
               if skip item then response else push response (g item))
            arr index acc
    = (acc ++ List.map g (List.filter (fun item => negb (skip item)) arr))%list.
Proof.
  induction arr as [|item rest IH]; intros index acc.
  - simpl. symmetry. apply app_nil_r.
  - cbn [forEach List.filter]. rewrite IH.
    destruct (skip item); cbn [negb List.map].
    + reflexivity.
    + unfold push. rewrite <- app_assoc. reflexivity.
Qed.

Lemma concat_empty_app (xs ys : list string) :
  String.concat EmptyString (xs ++ ys)%list
  = String.concat EmptyString xs ++ String.concat EmptyString ys.
Proof.
  induction xs as [|x xs IH]; [reflexivity|].
  destruct xs as [|x' xs'].
  - destruct ys as [|y ys]; simpl; [rewrite append_empty_r|]; reflexivity.
  - change (String.concat EmptyString ((x :: x' :: xs') ++ ys)%list)
      with (x ++ String.concat EmptyString ((x' :: xs') ++ ys)%list).
    rewrite IH.
    change (String.concat EmptyString (x :: x' :: xs'))
      with (x ++ String.concat EmptyString (x' :: xs')).
    rewrite append_assoc. reflexivity.
Qed.

(** X2.  The object-wide search builder yields one fragment per search term
    that is not the empty text, in the order of the terms; empty terms leave
    no trace. *)
Theorem getFullSearchSql_fragments (searches : list string) :
  getFullSearchSql searches
  = List.map
      (fun search =>
         "AND LOWER(ToString(backend)) LIKE " ++ dquote ++ "%"
         ++ toLowerCase search ++ "%" ++ dquote)
      (List.filter (fun search => negb (String.eqb search EmptyString))
                   searches).
Proof.
  unfold getFullSearchSql.
  rewrite (forEach_push_unless
             (fun search => String.eqb search EmptyString)
             (fun search =>
                "AND LOWER(ToString(backend)) LIKE " ++ dquote ++ "%"
                ++ toLowerCase search ++ "%" ++ dquote)).
  reflexivity.
Qed.

(** X3.  The field search builder concatenates, in order, one clause per
    entry, each followed by a blank; the search of a list put together from
    two lists is the two searches one after the other. *)
Theorem getSearchQuery_clauses (search more : list SearchField) :
  getSearchQuery search
  = String.concat EmptyString
      (List.map
         (fun entry =>
            "AND LOWER(backend." ++ search_field entry ++ ") LIKE '%"
            ++ toLowerCase (search_value entry) ++ "%' ")
         search)
  /\ getSearchQuery (search ++ more)%list
     = getSearchQuery search ++ getSearchQuery more.
Proof.
  assert (Hform : forall entries,
             getSearchQuery entries
             = String.concat EmptyString
                 (List.map
                    (fun entry =>
                       "AND LOWER(backend." ++ search_field entry
                       ++ ") LIKE '%" ++ toLowerCase (search_value entry)
                       ++ "%' ")
                    entries)).
  { intros entries. unfold getSearchQuery.
    destruct entries as [|entry rest]; [reflexivity|].
    cbn [List.length Nat.eqb].
    rewrite (forEach_append
               (fun entry =>
                  "AND LOWER(backend." ++ search_field entry ++ ") LIKE '%"
                  ++ toLowerCase (search_value entry) ++ "%' ")).
    reflexivity. }
  split; [apply Hform|].
  rewrite !Hform, List.map_app. apply concat_empty_app.
Qed.

(** ** The path resolver, the sort builder and the composer *)

Lemma split_append (sep : ascii) (a b : string) :
  split sep (a ++ String sep b) = (split sep a ++ split sep b)%list.
Proof.
  induction a as [|c a IH]; simpl.
  - rewrite Ascii.eqb_refl. reflexivity.
  - destruct (Ascii.eqb c sep); [rewrite IH; reflexivity|].
    rewrite IH.
    destruct (split sep a) as [|piece pieces] eqn:E;
      [exfalso; exact (split_not_nil _ _ E)|reflexivity].
Qed.

(** X4.  Resolving two paths put together with a dot gives the two resolved
    paths one after the other, whatever the paths are. *)
Theorem objectToString_compose (parent child : string) :
  objectToString (parent ++ "." ++ child)
  = objectToString parent ++ objectToString child.
Proof.
  rewrite !objectToString_concat.
  change ("." ++ child) with (String dot child).
  rewrite split_append, List.map_app. apply concat_empty_app.
Qed.

Lemma prefix_append (p s : string) : String.prefix p (p ++ s) = true.
Proof.
  induction p as [|c p IH]; simpl; [destruct s; reflexivity|].
  destruct (ascii_dec c c) as [_|Hc]; [exact IH|exfalso; apply Hc; reflexivity].
Qed.

Lemma concat_cons_prefix (sep head : string) (tail : list string) :
  exists rest, String.concat sep (head :: tail) = head ++ rest.
Proof.
  destruct tail as [|next tail'].
  - exists EmptyString. simpl. symmetry. apply append_empty_r.
  - exists (sep ++ String.concat sep (next :: tail')). reflexivity.
Qed.

Lemma mapi_recognised (rest : list SortItem) :
  Forall (fun item => order item = ASC \/ order item = DESC) rest ->
  forall index,
    mapi (fun item index =>
            match order item with
            | ASC =>
                if Nat.eqb index 0
                then "ORDER BY backend." ++ sort_field item ++ " ASC"
                else "backend." ++ sort_field item ++ " ASC"
            | DESC =>
                if Nat.eqb index 0
                then "ORDER BY backend." ++ sort_field item ++ " DESC"
                else "backend." ++ sort_field item ++ " DESC"
            | otherOrder _ => EmptyString
            end)
         rest (S index)
    = List.map (fun item =>
                  "backend." ++ sort_field item
                  ++ match order item with
                     | ASC => " ASC"
                     | DESC => " DESC"
                     | otherOrder _ => EmptyString
                     end)
               rest.
Proof.
  induction 1 as [|item rest Hitem Hrest IH]; intros index; [reflexivity|].
  cbn [mapi List.map Nat.eqb]. rewrite IH.
  destruct Hitem as [-> | ->]; reflexivity.
Qed.

(** X5.  For a sort list with at least one entry, all of order ASC or DESC,
    the composed sort clause is ORDER BY, a blank, and the terms
    backend.<field> <direction> of the entries in order, separated by a comma
    and a blank. *)
Theorem getAllOptionsQuery_order_by (sort : list SortItem)
    (filter : list Filter) (search : list string)
    (searchFields : list SearchField) (properties : list string) :
  sort <> [] ->
  Forall (fun item => order item = ASC \/ order item = DESC) sort ->
  sorts (getAllOptionsQuery sort filter search searchFields properties)
  = "ORDER BY "
    ++ String.concat ", "
         (List.map (fun item =>
                      "backend." ++ sort_field item
                      ++ match order item with
                         | ASC => " ASC"
                         | DESC => " DESC"
                         | otherOrder _ => EmptyString
                         end)
                   sort).
Proof.
  intros Hne Hall. destruct sort as [|item rest]; [contradiction|].
  inversion Hall as [|? ? Hitem Hrest]; subst.
  cbn [getAllOptionsQuery sorts]. unfold join, getSort. cbn [mapi Nat.eqb].
  rewrite (mapi_recognised rest Hrest 0). cbn [List.map].
  set (terms := List.map _ rest).
  destruct Hitem as [-> | ->]; destruct terms; reflexivity.
Qed.

(** X6.  The composed sort clause begins with ORDER BY and a blank exactly
    when the sort list has a first entry and its order is ASC or DESC,
    whatever the other entries are. *)
Theorem getAllOptionsQuery_order_by_keyword (sort : list SortItem)
    (filter : list Filter) (search : list string)
    (searchFields : list SearchField) (properties : list string) :
  String.prefix "ORDER BY "
    (sorts (getAllOptionsQuery sort filter search searchFields properties))
  = true
  <-> exists item rest,
        sort = item :: rest /\ (order item = ASC \/ order item = DESC).
Proof.
  cbn [getAllOptionsQuery sorts]. unfold join, getSort.
  destruct sort as [|item rest].
  - split; [discriminate|]. intros [item [rest [H _]]]. discriminate H.
  - cbn [mapi Nat.eqb]. set (tail := mapi _ rest 1).
    destruct (order item) as [| |tag] eqn:Eo.
    + split; [intros _; exists item, rest; split; [reflexivity|left; exact Eo]|].
      intros _.
      destruct (concat_cons_prefix
                  ", " ("ORDER BY backend." ++ sort_field item ++ " ASC") tail)
        as [more Hmore].
      rewrite Hmore.
      change (("ORDER BY backend." ++ sort_field item ++ " ASC") ++ more)
        with ("ORDER BY "
              ++ (("backend." ++ sort_field item ++ " ASC") ++ more)).
      apply prefix_append.
    + split; [intros _; exists item, rest; split; [reflexivity|right; exact Eo]|].
      intros _.
      destruct (concat_cons_prefix
                  ", " ("ORDER BY backend." ++ sort_field item ++ " DESC") tail)
        as [more Hmore].
      rewrite Hmore.
      change (("ORDER BY backend." ++ sort_field item ++ " DESC") ++ more)
        with ("ORDER BY "
              ++ (("backend." ++ sort_field item ++ " DESC") ++ more)).
      apply prefix_append.
    + split.
      * destruct tail as [|next tail']; cbn; discriminate.
      * intros [item' [rest' [H [Ho | Ho]]]]; inversion H; subst;
          rewrite Eo in Ho; discriminate Ho.
Qed.

(** ** The filter builder and the composer *)

Lemma filterStep_join_prefix (filter : Filter) (index : nat) :
  firstPiece (filter_field filter) = Some "documents"
  \/ firstPiece (filter_field filter) = Some "submissions" ->
  String.prefix "JOIN (SELECT VALUE t"
                (nth 0 (filterStep [] filter index) EmptyString) = true.
Proof.
  intros H. unfold filterStep.
  assert (Hres : strictEqString (firstPiece (filter_field filter)) "documents"
                 || strictEqString (firstPiece (filter_field filter))
                                   "submissions" = true)
    by (destruct H as [-> | ->]; reflexivity).
  rewrite Hres. cbn [push app nth]. apply prefix_append.
Qed.

Lemma filterStep_and_prefix (filter : Filter) (index : nat) :
  firstPiece (filter_field filter) <> Some "documents" ->
  firstPiece (filter_field filter) <> Some "submissions" ->
  exists rest,
    nth 0 (filterStep [] filter index) EmptyString = "AND " ++ rest.
Proof.
  intros Hd Hs. rewrite (filterStep_where _ _ Hd Hs).
  destruct (isUndefined (value filter)); cbn [nth]; eexists; reflexivity.
Qed.

(** X7.  The filter builder returns as many fragments as there are criteria,
    and the fragment at the position of a criterion begins with JOIN (SELECT
    VALUE t when the first piece of its field is documents or submissions,
    and with AND and a blank when it is not. *)
Theorem getFilterSql_fragment_kinds (filters : list Filter) :
  List.length (getFilterSql filters) = List.length filters
  /\ forall index filter,
       nth_error filters index = Some filter ->
       exists fragment,
         nth_error (getFilterSql filters) index = Some fragment
         /\ (firstPiece (filter_field filter) = Some "documents"
             \/ firstPiece (filter_field filter) = Some "submissions" ->
             String.prefix "JOIN (SELECT VALUE t" fragment = true)
         /\ (firstPiece (filter_field filter) <> Some "documents" ->
             firstPiece (filter_field filter) <> Some "submissions" ->
             String.prefix "AND " fragment = true).
Proof.
  split; [apply getFilterSql_length|].
  intros index filter Hnth. eexists. split; [apply getFilterSql_nth, Hnth|].
  split.
  - apply filterStep_join_prefix.
  - intros Hd Hs. destruct (filterStep_and_prefix filter index Hd Hs) as [rest ->].
    apply prefix_append.
Qed.

Lemma filter_mapi_all {A : Type} (P : A -> Prop) (keep : string -> bool)
    (g : A -> nat -> string) (arr : list A) :
  (forall item index, P item -> keep (g item index) = true) ->
  Forall P arr ->
  forall start, List.filter keep (mapi g arr start) = mapi g arr start.
Proof.
  intros Hkeep Hall. induction Hall as [|item rest Hitem Hrest IH];
    intros start; [reflexivity|].
  cbn [mapi List.filter]. rewrite (Hkeep item start Hitem), IH. reflexivity.
Qed.

(** X8.  When no criterion has documents or submissions as the first piece
    of its field, the composer drops nothing: its filter clause is every
    fragment of the filter builder, in order, separated by single blanks. *)
Theorem getAllOptionsQuery_keeps_where (sort : list SortItem)
    (filter : list Filter) (search : list string)
    (searchFields : list SearchField) (properties : list string) :
  Forall (fun criterion =>
            firstPiece (filter_field criterion) <> Some "documents"
            /\ firstPiece (filter_field criterion) <> Some "submissions")
         filter ->
  filters (getAllOptionsQuery sort filter search searchFields properties)
  = String.concat " " (getFilterSql filter).
Proof.
  intros Hall. cbn [getAllOptionsQuery filters]. unfold join. f_equal.
  rewrite getFilterSql_mapi.
  apply (filter_mapi_all
           (fun criterion =>
              firstPiece (filter_field criterion) <> Some "documents"
              /\ firstPiece (filter_field criterion) <> Some "submissions"));
    [|exact Hall].
  intros criterion index [Hd Hs].
  destruct (filterStep_and_prefix criterion index Hd Hs) as [rest ->].
  change ("AND " ++ rest) with ("AND" ++ " " ++ rest). apply includes_prefix.
Qed.

(** X9.  A criterion whose field is just documents or submissions, with no
    second piece, yields the JOIN fragment that compares the property named
    undefined of the alias with the text of the value. *)
Theorem getFilterSql_collection_only (filters : list Filter) (index : nat)
    (collection : string) (c : FilterCondition) (v : Value) :
  collection = "documents" \/ collection = "submissions" ->
  nth_error filters index
  = Some {| filter_field := collection; condition := c; value := v |} ->
  nth_error (getFilterSql filters) index
  = Some ("JOIN (SELECT VALUE t" ++ indexToString index
          ++ " FROM t" ++ indexToString index
          ++ " IN backend." ++ collection
          ++ " WHERE t" ++ indexToString index ++ ".undefined = '"
          ++ templateOfValue v ++ "')").
Proof.
  intros Hc Hnth. rewrite (getFilterSql_nth _ _ _ Hnth).
  destruct Hc as [-> | ->]; reflexivity.
Qed.

(** * Further properties of the list service *)

Lemma indexOf_lower_bound (arr : list (option string)) (x : option string) :
  (-1 <= indexOf arr x)%Z.
Proof.
  induction arr as [|y rest IH]; simpl; [lia|].
  destruct (strictEq y x); [lia|].
  destruct (Z.eqb (indexOf rest x) (-1)); lia.
Qed.

Lemma indexOf_found (arr : list (option string)) (x : option string) :
  negb (Z.eqb (indexOf arr x) (-1)) = existsb (fun y => strictEq y x) arr.
Proof.
  induction arr as [|y rest IH]; simpl; [reflexivity|].
  destruct (strictEq y x); [reflexivity|]. cbn [orb].
  destruct (Z.eqb (indexOf rest x) (-1)) eqn:E.
  - rewrite <- IH. reflexivity.
  - rewrite <- IH. cbn [negb].
    pose proof (indexOf_lower_bound rest x) as Hlow.
    apply Z.eqb_neq in E.
    assert (Hne : (indexOf rest x + 1 <> -1)%Z) by lia.
    apply Z.eqb_neq in Hne. rewrite Hne. reflexivity.
Qed.

Lemma existsb_active_types (f : option string -> bool)
    (entries : list ModuleEntry) :
  existsb f (List.map type (List.filter (fun it => active it) entries))
  = existsb (fun entry => active entry && f (type entry)) entries.
Proof.
  induction entries as [|entry rest IH]; [reflexivity|].
  cbn [List.filter existsb]. destruct (active entry); cbn [List.map existsb andb orb].
  - rewrite IH. reflexivity.
  - exact IH.
Qed.

(** X10.  A failure of the store on the permission lookup ends the call with
    that very error, and the call has then sent nothing but the permission
    request: no page is asked for. *)
Theorem getCaseList_permission_failure (this : CasesService)
    (customerId projectId : string)
    (contToken : option string) (pageLimit : option number)
    (sort : option (list SortItem)) (filter : option (list Filter))
    (search : option (list string)) (searchFields : option (list SearchField))
    (properties : option (list string)) (e : Error) :
  fetchAll (db (cosmosDbHelper this)) "Project"
           (permissionQuery customerId projectId) None = Thrown e ->
  getCaseList this customerId projectId contToken pageLimit sort filter search
              searchFields properties []
  = (Thrown e,
     [QueryAll "Project" (permissionQuery customerId projectId) None]).
Proof.
  intros Hall. rewrite getCaseList_run. cbv zeta. rewrite Hall. reflexivity.
Qed.

(** X11.  A failure of the store on the page request ends the call with that
    very error, after the two requests and before anything is written to the
    console. *)
Theorem getCaseList_page_failure (this : CasesService)
    (customerId projectId : string)
    (contToken : option string) (pageLimit : option number)
    (sort : option (list SortItem)) (filter : option (list Filter))
    (search : option (list string)) (searchFields : option (list SearchField))
    (properties : option (list string)) (record : FeedResponse) (e : Error) :
  fetchAll (db (cosmosDbHelper this)) "Project"
           (permissionQuery customerId projectId) None = Returned record ->
  fetchNext (db (cosmosDbHelper this)) "testing"
            (caseQuery customerId projectId)
            {| maxItemCount := orDefault ten pageLimit;
               continuationToken := orDefault EmptyString contToken;
               partitionKey := "createdAt" |} = Thrown e ->
  getCaseList this customerId projectId contToken pageLimit sort filter search
              searchFields properties []
  = (Thrown e,
     [QueryAll "Project" (permissionQuery customerId projectId) None;
      QueryNext "testing" (caseQuery customerId projectId)
                {| maxItemCount := orDefault ten pageLimit;
                   continuationToken := orDefault EmptyString contToken;
                   partitionKey := "createdAt" |}]).
Proof.
  intros Hall Hnext. rewrite getCaseList_run. cbv zeta.
  rewrite Hall, Hnext. reflexivity.
Qed.

(** X12.  When the first permission record has a modules list, the call
    returns, in the order of the page, exactly the rows of the page whose
    module is the type of an entry of that list with the active flag set;
    later permission records play no part, and the options are the five
    fixed document types. *)
Theorem getCaseList_permitted_rows (this : CasesService)
    (customerId projectId : string)
    (contToken : option string) (pageLimit : option number)
    (sort : option (list SortItem)) (filter : option (list Filter))
    (search : option (list string)) (searchFields : option (list SearchField))
    (properties : option (list string)) (record response : FeedResponse)
    (first : Item) (others : list Item) (entries : list ModuleEntry) :
  fetchAll (db (cosmosDbHelper this)) "Project"
           (permissionQuery customerId projectId) None = Returned record ->
  fetchNext (db (cosmosDbHelper this)) "testing"
            (caseQuery customerId projectId)
            {| maxItemCount := orDefault ten pageLimit;
               continuationToken := orDefault EmptyString contToken;
               partitionKey := "createdAt" |} = Returned response ->
  resources record = first :: others ->
  modules first = Some entries ->
  exists page,
    fst (getCaseList this customerId projectId contToken pageLimit sort filter
                     search searchFields properties []) = Returned page
    /\ list_result page
       = List.filter
           (fun row =>
              existsb (fun entry =>
                         active entry && strictEq (type entry) (module row))
                      entries)
           (resources response)
    /\ options page
       = ["Invoice"; "Waybill"; "Delivery Note"; "Order Confirmation";
          "Packing List"].
Proof.
  intros Hall Hnext Hrecord Hmodules. rewrite getCaseList_run. cbv zeta.
  rewrite Hall, Hnext. unfold activeModuleTypes.
  rewrite Hrecord. cbn [nth_error]. rewrite Hmodules.
  rewrite filterThrowing_permitted. cbn [fst].
  eexists. split; [reflexivity|]. cbn [list_result options].
  split; [|reflexivity].
  apply List.filter_ext. intros row.
  rewrite indexOf_found. apply existsb_active_types.
Qed.

(** X13.  When the store answers both requests, the call throws exactly when
    the page has a row and the permitted set is undefined, that is, when
    there is no permission record or the first one has no modules list; what
    it throws is the TypeError of reading indexOf off undefined. *)
Theorem getCaseList_throws_iff (this : CasesService)
    (customerId projectId : string)
    (contToken : option string) (pageLimit : option number)
    (sort : option (list SortItem)) (filter : option (list Filter))
    (search : option (list string)) (searchFields : option (list SearchField))
    (properties : option (list string)) (record response : FeedResponse) :
  fetchAll (db (cosmosDbHelper this)) "Project"
           (permissionQuery customerId projectId) None = Returned record ->
  fetchNext (db (cosmosDbHelper this)) "testing"
            (caseQuery customerId projectId)
            {| maxItemCount := orDefault ten pageLimit;
               continuationToken := orDefault EmptyString contToken;
               partitionKey := "createdAt" |} = Returned response ->
  let outcome :=
    fst (getCaseList this customerId projectId contToken pageLimit sort filter
                     search searchFields properties []) in
  ((exists e, outcome = Thrown e)
   <-> resources response <> []
       /\ (resources record = []
           \/ exists first others,
                resources record = first :: others /\ modules first = None))
  /\ forall e,
       outcome = Thrown e ->
       e = TypeError "Cannot read properties of undefined (reading 'indexOf')".
Proof.
  intros Hall Hnext outcome. subst outcome.
  rewrite getCaseList_run. cbv zeta. rewrite Hall, Hnext. cbn [fst].
  unfold activeModuleTypes.
  destruct (resources record) as [|first others] eqn:Hrecord; cbn [nth_error].
  - destruct (resources response) as [|row rows] eqn:Hrows.
    + cbn [filterThrowing]. split; [|intros e H; discriminate H].
      split; [intros [e H]; discriminate H|]. intros [H _]. contradiction.
    + rewrite filterThrowing_undefined. split.
      * split; [intros _; split; [discriminate|left; reflexivity]|].
        intros _. eexists. reflexivity.
      * intros e H. inversion H. reflexivity.
  - destruct (modules first) as [entries|] eqn:Hmodules.
    + rewrite filterThrowing_permitted. split; [|intros e H; discriminate H].
      split; [intros [e H]; discriminate H|].
      intros [_ [H | [first' [others' [H Hnone]]]]]; [discriminate H|].
      inversion H; subst. rewrite Hmodules in Hnone. discriminate Hnone.
    + destruct (resources response) as [|row rows] eqn:Hrows.
      * cbn [filterThrowing]. split; [|intros e H; discriminate H].
        split; [intros [e H]; discriminate H|]. intros [H _]. contradiction.
      * rewrite filterThrowing_undefined. split.
        -- split; [intros _; split; [discriminate|]|intros _; eexists; reflexivity].
           right. exists first, others. split; [reflexivity|exact Hmodules].
        -- intros e H. inversion H. reflexivity.
Qed.

(** * Properties of [stringToObject] *)

Lemma getProp_setProp_same (props : list (string * Any)) (key : string)
    (v : Any) :
  getProp (setProp props key v) key = v.
Proof.
  induction props as [|[k old] rest IH]; simpl.
  - rewrite String.eqb_refl. reflexivity.
  - destruct (String.eqb k key) eqn:E; simpl; rewrite E; [reflexivity|exact IH].
Qed.

Lemma getProp_setProp_other (props : list (string * Any)) (key other : string)
    (v : Any) :
  other <> key ->
  getProp (setProp props key v) other = getProp props other.
Proof.
  intros Hne. induction props as [|[k old] rest IH]; simpl.
  - destruct (String.eqb key other) eqn:E; [|reflexivity].
    apply String.eqb_eq in E. exfalso. apply Hne. symmetry. exact E.
  - destruct (String.eqb k key) eqn:E; simpl.
    + apply String.eqb_eq in E. subst k.
      destruct (String.eqb key other) eqn:E'; [|reflexivity].
      apply String.eqb_eq in E'. exfalso. apply Hne. symmetry. exact E'.
    + rewrite IH. reflexivity.
Qed.

Lemma whileShift_null (parts : list string) (last : string) (value : Any) :
  exists e, whileShift parts last value None = Thrown e.
Proof.
  destruct parts as [|part rest]; simpl; [eexists; reflexivity|].
  destruct (String.eqb part EmptyString); eexists; reflexivity.
Qed.

Lemma whileShift_fresh (parts : list string) (last : string) (value : Any) :
  exists props, whileShift parts last value (Some []) = Returned props.
Proof.
  induction parts as [|part rest [props IH]]; simpl; [eexists; reflexivity|].
  destruct (String.eqb part EmptyString); [eexists; reflexivity|].
  rewrite IH. eexists. reflexivity.
Qed.

Lemma readPath_undefined (keys : list string) :
  readPath keys (primitive undefined) = primitive undefined.
Proof. destruct keys; reflexivity. Qed.

Lemma segments_pop (path : string) :
  split dot path
  = (List.removelast (split dot path)
       ++ [List.last (split dot path) "undefined"])%list.
Proof. apply app_removelast_last, split_not_nil. Qed.

Lemma whileShift_read (parts : list string) (last : string) (value : Any) :
  Forall (fun part => part <> EmptyString) parts ->
  forall obj props,
    whileShift parts last value (Some obj) = Returned props ->
    readPath (parts ++ [last]) (object props) = value.
Proof.
  induction 1 as [|part rest Hpart Hrest IH]; intros obj props Hrun.
  - simpl in Hrun. inversion Hrun; subst. simpl.
    apply getProp_setProp_same.
  - simpl in Hrun. apply String.eqb_neq in Hpart. rewrite Hpart in Hrun.
    destruct (getProp obj part) as [|v|child] eqn:Hget.
    + destruct (whileShift_null rest last value) as [e He].
      rewrite He in Hrun. discriminate Hrun.
    + destruct (whileShift rest last value (Some [])) as [child'|e] eqn:Hrec;
        [|discriminate Hrun].
      inversion Hrun; subst. cbn [app readPath].
      rewrite getProp_setProp_same. exact (IH _ _ Hrec).
    + destruct (whileShift rest last value (Some child)) as [child'|e] eqn:Hrec;
        [|discriminate Hrun].
      inversion Hrun; subst. cbn [app readPath].
      rewrite getProp_setProp_same. exact (IH _ _ Hrec).
Qed.

(** X14.  For a path whose segments before the last are not empty (and none
    is __proto__): whenever the call returns, reading the object along the
    segments of the path gives the value written, whatever the object held
    before; and on an empty object the call does return. *)
Theorem stringToObject_read_back (path : string) (value : Any) :
  Forall (fun part => part <> EmptyString)
         (List.removelast (split dot path)) ->
  ~ In "__proto__" (split dot path) ->
  (forall obj props,
      stringToObject path value obj = Returned props ->
      readPath (split dot path) (object props) = value)
  /\ exists props, stringToObject path value [] = Returned props.
Proof.
  intros Hparts _. split.
  - intros obj props Hrun. rewrite (segments_pop path).
    exact (whileShift_read _ _ _ Hparts obj props Hrun).
  - apply whileShift_fresh.
Qed.

Lemma whileShift_throws (parts : list string) (last : string) (value : Any) :
  Forall (fun part => part <> EmptyString) parts ->
  forall obj,
    (exists e, whileShift parts last value (Some obj) = Thrown e)
    <-> exists before after,
          parts = (before ++ after)%list /\ before <> []
          /\ readPath before (object obj) = null.
Proof.
  induction 1 as [|part rest Hpart Hrest IH]; intros obj.
  - simpl. split.
    + intros [e H]. discriminate H.
    + intros [before [after [Happ [Hne _]]]].
      destruct before; [contradiction|discriminate Happ].
  - simpl. apply String.eqb_neq in Hpart. rewrite Hpart.
    destruct (getProp obj part) as [|v|child] eqn:Hget.
    + destruct (whileShift_null rest last value) as [e He]. rewrite He.
      split.
      * intros _. exists [part], rest. split; [reflexivity|].
        split; [discriminate|]. simpl. exact Hget.
      * intros _. eexists. reflexivity.
    + destruct (whileShift_fresh rest last value) as [props Hp]. rewrite Hp.
      split.
      * intros [e H]. discriminate H.
      * intros [before [after [Happ [Hne Hread]]]].
        destruct before as [|b before']; [contradiction|].
        injection Happ as Hb Hrest'. subst b.
        simpl in Hread. rewrite Hget in Hread.
        destruct before'; discriminate Hread.
    + specialize (IH child). split.
      * intros [e H].
        destruct (whileShift rest last value (Some child)) as [child'|e'] eqn:Hrec;
          [discriminate H|].
        destruct (proj1 IH (ex_intro _ e' eq_refl))
          as [before [after [Happ [Hne Hread]]]].
        exists (part :: before), after. split; [simpl; rewrite Happ; reflexivity|].
        split; [discriminate|]. simpl. rewrite Hget. exact Hread.
      * intros [before [after [Happ [Hne Hread]]]].
        destruct before as [|b before']; [contradiction|].
        injection Happ as Hb Hrest'. subst b.
        simpl in Hread. rewrite Hget in Hread.
        destruct before' as [|b' before'']; [discriminate Hread|].
        destruct (proj2 IH) as [e He].
        { exists (b' :: before''), after. split; [exact Hrest'|].
          split; [discriminate|exact Hread]. }
        rewrite He. eexists. reflexivity.
Qed.

(** X15.  For a path whose segments before the last are not empty (and none
    is __proto__), the call throws exactly when reading the object along
    some non-empty run of the leading segments, the last segment left out,
    arrives at null: null is kept where a primitive would be replaced. *)
Theorem stringToObject_throws_iff (path : string) (value : Any)
    (obj : list (string * Any)) :
  Forall (fun part => part <> EmptyString)
         (List.removelast (split dot path)) ->
  ~ In "__proto__" (split dot path) ->
  (exists e, stringToObject path value obj = Thrown e)
  <-> exists before after,
        List.removelast (split dot path) = (before ++ after)%list
        /\ before <> []
        /\ readPath before (object obj) = null.
Proof.
  intros Hparts _. exact (whileShift_throws _ _ _ Hparts obj).
Qed.

Lemma whileShift_frame (parts : list string) (last : string) (value : Any) :
  Forall (fun part => part <> EmptyString) parts ->
  forall obj props keys,
    whileShift parts last value (Some obj) = Returned props ->
    partWays keys (parts ++ [last]) ->
    readPath keys (object props) = readPath keys (object obj).
Proof.
  induction 1 as [|part rest Hpart Hrest IH]; intros obj props keys Hrun Hways.
  - simpl in Hrun. inversion Hrun; subst. simpl in Hways.
    inversion Hways as [a b q s Hne | a q s Hlater]; subst.
    + simpl. rewrite (getProp_setProp_other _ _ _ _ Hne). reflexivity.
    + inversion Hlater.
  - simpl in Hrun. apply String.eqb_neq in Hpart. rewrite Hpart in Hrun.
    simpl in Hways.
    assert (Hother : forall child' a q,
               a <> part ->
               readPath (a :: q) (object (setProp obj part (object child')))
               = readPath (a :: q) (object obj)).
    { intros child' a q Hne. simpl.
      rewrite (getProp_setProp_other _ _ _ _ Hne). reflexivity. }
    destruct (getProp obj part) as [|v|child] eqn:Hget.
    + destruct (whileShift_null rest last value) as [e He].
      rewrite He in Hrun. discriminate Hrun.
    + destruct (whileShift rest last value (Some [])) as [child'|e] eqn:Hrec;
        [|discriminate Hrun].
      inversion Hrun; subst.
      inversion Hways as [a b q s Hne | a q s Hlater]; subst;
        [apply Hother, Hne|].
      simpl. rewrite getProp_setProp_same, Hget.
      rewrite (IH _ _ _ Hrec Hlater).
      inversion Hlater; subst; simpl; rewrite readPath_undefined;
        destruct q0; reflexivity.
    + destruct (whileShift rest last value (Some child)) as [child'|e] eqn:Hrec;
        [|discriminate Hrun].
      inversion Hrun; subst.
      inversion Hways as [a b q s Hne | a q s Hlater]; subst;
        [apply Hother, Hne|].
      simpl. rewrite getProp_setProp_same, Hget.
      exact (IH _ _ _ Hrec Hlater).
Qed.

(** X16.  For a path whose segments before the last are not empty (and none
    is __proto__): when the call returns, every value other than undefined
    that the object held along keys that part ways with the path (each key
    read off an object, among its own properties) is read along the same keys
    after the call; the objects already on the way are extended, not
    replaced. *)
Theorem stringToObject_frame (path : string) (value : Any)
    (obj props : list (string * Any)) (keys : list string) :
  Forall (fun part => part <> EmptyString)
         (List.removelast (split dot path)) ->
  ~ In "__proto__" (split dot path) ->
  stringToObject path value obj = Returned props ->
  partWays keys (split dot path) ->
  readPath keys (object obj) <> primitive undefined ->
  readPath keys (object props) = readPath keys (object obj).
Proof.
  intros Hparts _ Hrun Hways _. rewrite (segments_pop path) in Hways.
  exact (whileShift_frame _ _ _ Hparts obj props keys Hrun Hways).
Qed.

Lemma whileShift_truncate (before after : list string) (last : string)
    (value : Any) :
  forall obj,
    whileShift (before ++ EmptyString :: after) last value obj
    = whileShift before last value obj.
Proof.
  induction before as [|part rest IH]; intros obj.
  - reflexivity.
  - cbn [app whileShift].
    destruct (String.eqb part EmptyString); [reflexivity|].
    destruct obj as [props|]; [|reflexivity].
    rewrite IH. reflexivity.
Qed.

(** X17.  An empty segment before the last cuts the walk short: the path
    made of the segments before, an empty segment, any segments after and a
    last segment acts as the path made of the segments before and the last
    segment (no segment holding a dot, none being __proto__). *)
Theorem stringToObject_empty_segment (before after : list string)
    (last : string) (value : Any) (obj : list (string * Any)) :
  Forall (fun segment => lacks dot segment = true)
         (before ++ after ++ [last]) ->
  ~ In "__proto__" (before ++ after ++ [last]) ->
  stringToObject (join "." (before ++ EmptyString :: after ++ [last])) value obj
  = stringToObject (join "." (before ++ [last])) value obj.
Proof.
  intros Hall _. unfold stringToObject. cbv zeta.
  apply Forall_app in Hall as [Hbefore Hrest].
  apply Forall_app in Hrest as [Hafter Hlast].
  change "." with (String dot EmptyString).
  rewrite !split_join.
  - replace (before ++ EmptyString :: after ++ [last])%list
      with ((before ++ EmptyString :: after) ++ [last])%list
      by (rewrite <- app_assoc; reflexivity).
    rewrite !removelast_last, !last_last. apply whileShift_truncate.
  - destruct before; discriminate.
  - apply Forall_app. split; assumption.
  - destruct before; discriminate.
  - apply Forall_app. split; [assumption|].
    constructor; [reflexivity|]. apply Forall_app. split; assumption.
Qed.

End Runtime.

Arguments undefined {number}.
Arguments str {number} s.
Arguments num {number} n.
Arguments boolean {number} b.
Arguments QueryAll {number} containerId spec options.
Arguments QueryNext {number} containerId spec options.
Arguments ConsoleLog {number} rows.
Arguments filter_field {number} _.
Arguments condition {number} _.
Arguments value {number} _.
Arguments maxItemCount {number} _.
Arguments continuationToken {number} _.
Arguments partitionKey {number} _.
Arguments fetchAll {number} _ _ _ _.
Arguments fetchNext {number} _ _ _ _.
Arguments db {number} _.
Arguments cosmosDbHelper {number} _.
Arguments templateOfValue {number} numberToString v.
Arguments null {number}.
Arguments primitive {number} v.
Arguments object {number} props.
Arguments getProp {number} props key.
Arguments setProp {number} props key v.
Arguments stringToObject {number} path value obj.
Arguments readPath {number} keys v.
Arguments caseObject {number} ten.
Arguments storePermissionDown {number}.
Arguments storePageDown {number}.
Arguments statusContainsOpen {number}.
Arguments statusIsOpen {number}.
Arguments amountAboveTen {number} ten.
Arguments archivedUndefined {number}.
Arguments documentTypeUndefined {number}.
Arguments documentTypeBrand {number}.
Arguments documentNested {number}.
Arguments storeWithRecord {number}.
Arguments storeWithoutRecord {number}.
Arguments getFilterSql {number} numberToString filters.
Arguments getAllOptionsQuery {number} numberToString toLowerCase
  sort filter search searchFields properties.
Arguments getCaseList {number} numberToString ten toLowerCase this
  customerId projectId contToken pageLimit sort filter search searchFields
  properties _.

(** * Worked inputs *)

(** ** The path resolver and the sort builder on worked inputs *)

Lemma objectToString_segments_witness :
  objectToString "data.value.amount.value"
  = ".data[" ++ dquote ++ "value" ++ dquote ++ "].amount["
    ++ dquote ++ "value" ++ dquote ++ "]".
Proof.
  assert (Hne : ["data"; "value"; "amount"; "value"] <> []) by discriminate.
  assert (Hall : Forall (fun segment => lacks dot segment = true)
                        ["data"; "value"; "amount"; "value"])
    by (repeat constructor).
  exact (proj1 (objectToString_segments _ Hne Hall)).
Defined.


(** ** The filter builder on worked inputs *)

Lemma getFilterSql_where_fragment_witness :
  nth_error (getFilterSql integerToString
                          [statusIsOpen; amountAboveTen 10%Z]) 1
  = Some ("AND backend.amount[" ++ dquote ++ "value" ++ dquote ++ "] > 10").
Proof.
  assert (Hd : firstPiece (filter_field (amountAboveTen 10%Z))
               <> Some "documents")
    by (vm_compute; discriminate).
  assert (Hs : firstPiece (filter_field (amountAboveTen 10%Z))
               <> Some "submissions")
    by (vm_compute; discriminate).
  assert (Hv : value (amountAboveTen 10%Z) <> undefined) by discriminate.
  exact (getFilterSql_where_fragment
           Z integerToString [statusIsOpen; amountAboveTen 10%Z] 1
           (amountAboveTen 10%Z)
           eq_refl Hd Hs Hv).
Defined.

(** C4, as stated, fails on a field with a blank before its first dot: the
    first dot-separated segment of the field documents x is the whole field,
    not documents, the value is defined, and the fragment is a JOIN. *)
Lemma getFilterSql_blank_first_segment :
  nth_error (split dot "documents x") 0 = Some "documents x"
  /\ getFilterSql integerToString
       [ {| filter_field := "documents x";
            condition := equals;
            value := str "open" |} ]
     = ["JOIN (SELECT VALUE t0 FROM t0 IN backend.documents WHERE t0.x = 'open')"]
  /\ getFilterSql integerToString
       [ {| filter_field := "documents x";
            condition := equals;
            value := str "open" |} ]
     <> ["AND backend.documents x = 'open'"].
Proof.
  split; [reflexivity|]. split; [reflexivity|].
  vm_compute. discriminate.
Qed.

(** C5, as stated, fails on a field of three segments: the second segment of
    documents.a.b is a, and the fragment compares a.b. *)
Lemma getFilterSql_join_third_segment :
  nth_error (split dot (filter_field (@documentNested Z))) 1 = Some "a"
  /\ getFilterSql integerToString [documentNested]
     = ["JOIN (SELECT VALUE t0 FROM t0 IN backend.documents WHERE t0.a.b = 'x')"]
  /\ getFilterSql integerToString [documentNested]
     <> ["JOIN (SELECT VALUE t0 FROM t0 IN backend.documents WHERE t0.a = 'x')"].
Proof.
  split; [reflexivity|]. split; [reflexivity|].
  vm_compute. discriminate.
Qed.

Lemma getFilterSql_join_fragment_witness :
  nth_error (getFilterSql integerToString [statusIsOpen; documentNested]) 1
  = Some "JOIN (SELECT VALUE t1 FROM t1 IN backend.documents WHERE t1.a.b = 'x')".
Proof.
  exact (getFilterSql_join_fragment
           Z integerToString [statusIsOpen; documentNested] 1
           "documents" "a.b" equals (str "x")
           (or_introl eq_refl) eq_refl eq_refl).
Defined.

(** C6, as stated, fails on a criterion of the documents collection: its
    value is undefined and its fragment is a JOIN, not the existence check. *)
Lemma getFilterSql_undefined_value_join :
  value (@documentTypeUndefined Z) = undefined
  /\ getFilterSql integerToString [documentTypeUndefined]
     = ["JOIN (SELECT VALUE t0 FROM t0 IN backend.documents WHERE t0.type = 'undefined')"]
  /\ getFilterSql integerToString [documentTypeUndefined]
     <> ["AND NOT IS_DEFINED(backend.documents.type)"].
Proof.
  split; [reflexivity|]. split; [reflexivity|].
  vm_compute. discriminate.
Qed.

Lemma getFilterSql_undefined_fragment_witness :
  nth_error (getFilterSql integerToString [archivedUndefined]) 0
  = Some "AND NOT IS_DEFINED(backend.meta.archived)".
Proof.
  assert (Hd : firstPiece (filter_field (@archivedUndefined Z))
               <> Some "documents")
    by (vm_compute; discriminate).
  assert (Hs : firstPiece (filter_field (@archivedUndefined Z))
               <> Some "submissions")
    by (vm_compute; discriminate).
  exact (getFilterSql_undefined_fragment
           Z integerToString [archivedUndefined] 0 archivedUndefined
           eq_refl eq_refl Hd Hs).
Defined.

(** C2, as stated, fails on an operator the encoder does not know: the
    encoder returns undefined and the fragment list still has a fragment. *)
Lemma getFilterSql_unknown_condition_kept :
  nth_error (split dot (filter_field (@statusContainsOpen Z))) 0
  = Some "status"
  /\ value (@statusContainsOpen Z) <> undefined
  /\ filterCondition (condition (@statusContainsOpen Z)) = None
  /\ getFilterSql integerToString [statusContainsOpen]
     = ["AND backend.status undefined 'open'"]
  /\ getFilterSql integerToString [statusContainsOpen] <> [].
Proof.
  split; [reflexivity|]. split; [discriminate|]. split; [reflexivity|].
  split; [reflexivity|]. vm_compute. discriminate.
Qed.

Lemma getFilterSql_unknown_condition_witness :
  nth_error (getFilterSql integerToString [statusContainsOpen]) 0
  = Some "AND backend.status undefined 'open'"
  /\ In "AND backend.status undefined 'open'"
        (List.filter (fun item => includes "AND" item)
                     (getFilterSql integerToString [statusContainsOpen])).
Proof.
  assert (Hd : firstPiece (filter_field (@statusContainsOpen Z))
               <> Some "documents")
    by (vm_compute; discriminate).
  assert (Hs : firstPiece (filter_field (@statusContainsOpen Z))
               <> Some "submissions")
    by (vm_compute; discriminate).
  assert (Hv : value (@statusContainsOpen Z) <> undefined) by discriminate.
  pose proof (getFilterSql_unknown_condition
                Z integerToString [statusContainsOpen] 0 statusContainsOpen
                "contains" eq_refl Hd Hs Hv eq_refl) as H.
  cbv zeta in H. destruct H as [_ [Hfrag [_ Hkept]]].
  split; [exact Hfrag | exact Hkept].
Defined.

(** ** The composer on a worked input *)

(** C3 at a criterion of the documents collection whose value holds the
    letters AND: its JOIN fragment passes the composer's test and is joined
    into the filter clause after the WHERE fragment. *)
Theorem getAllOptionsQuery_keeps_join :
  getFilterSql integerToString [statusIsOpen; documentTypeBrand]
  = ["AND backend.status = 'open'";
     "JOIN (SELECT VALUE t1 FROM t1 IN backend.documents WHERE t1.type = 'BRAND')"]
  /\ filters (getAllOptionsQuery integerToString lowerLetters []
                [statusIsOpen; documentTypeBrand] [] [] [])
     = "AND backend.status = 'open' JOIN (SELECT VALUE t1 FROM t1 IN backend.documents WHERE t1.type = 'BRAND')".
Proof. split; reflexivity. Qed.

(** ** The list service on worked inputs *)

(** C1 at a project without permission record and a page of two cases: the
    permitted set is undefined and the call throws a TypeError. *)
Theorem getCaseList_without_record_throws :
  activeModuleTypes (resources (feedOf [])) = None
  /\ fst (getCaseList integerToString 10%Z lowerLetters storeWithoutRecord
                      "customer-1" "project-1" (Some EmptyString) (Some 10%Z)
                      None None None None None [])
     = Thrown (TypeError
                 "Cannot read properties of undefined (reading 'indexOf')").
Proof. split; reflexivity. Qed.

Lemma getCaseList_paging_witness :
  exists page,
    fst (getCaseList integerToString 10%Z lowerLetters storeWithRecord
                     "customer-1" "project-1" (Some EmptyString) (Some 10%Z)
                     None None None None None [])
    = Returned page
    /\ In (QueryNext "testing" (caseQuery "customer-1" "project-1")
                     {| maxItemCount := 10%Z;
                        continuationToken := EmptyString;
                        partitionKey := "createdAt" |})
          (snd (getCaseList integerToString 10%Z lowerLetters storeWithRecord
                            "customer-1" "project-1" (Some EmptyString)
                            (Some 10%Z) None None None None None []))
    /\ list_hasMoreResults page = false
    /\ list_continuationToken page = EmptyString.
Proof.
  pose proof (getCaseList_paging
                Z integerToString 10%Z lowerLetters storeWithRecord
                "customer-1" "project-1" (Some EmptyString) (Some 10%Z)
                None None None None None (feedOf [projectRecord]) casePage
                eq_refl eq_refl) as H.
  cbv zeta in H. destruct H as [Htrace [Hpage Hreturns]].
  assert (Hdefined : activeModuleTypes (resources (feedOf [projectRecord]))
                     <> None) by discriminate.
  destruct (Hreturns (or_introl Hdefined)) as [page Hrun].
  exists page. split; [exact Hrun|]. split.
  - rewrite Htrace. right. left. reflexivity.
  - exact (Hpage page Hrun).
Defined.

(** ** Further worked inputs: the builders and the composer *)

Lemma getPropertiesQuery_joined_witness :
  getPropertiesQuery ["a"; "b"] = "backend.a, backend.b".
Proof.
  assert (Hne : ["a"; "b"] <> []) by discriminate.
  exact (getPropertiesQuery_joined ["a"; "b"] Hne).
Defined.

Lemma getAllOptionsQuery_order_by_witness :
  sorts (getAllOptionsQuery integerToString lowerLetters
           [ {| sort_field := "createdAt"; order := DESC |};
             {| sort_field := "module"; order := ASC |} ]
           [] [] [] [])
  = "ORDER BY backend.createdAt DESC, backend.module ASC".
Proof.
  assert (Hne : [ {| sort_field := "createdAt"; order := DESC |};
                  {| sort_field := "module"; order := ASC |} ] <> [])
    by discriminate.
  assert (Hall : Forall (fun item => order item = ASC \/ order item = DESC)
                        [ {| sort_field := "createdAt"; order := DESC |};
                          {| sort_field := "module"; order := ASC |} ])
    by (constructor; [right; reflexivity|];
        constructor; [left; reflexivity|constructor]).
  exact (getAllOptionsQuery_order_by
           Z integerToString lowerLetters _ [] [] [] [] Hne Hall).
Defined.

Lemma getAllOptionsQuery_keeps_where_witness :
  filters (getAllOptionsQuery integerToString lowerLetters []
             [statusIsOpen; archivedUndefined; amountAboveTen 10%Z] [] [] [])
  = "AND backend.status = 'open' AND NOT IS_DEFINED(backend.meta.archived) AND backend.amount["
    ++ dquote ++ "value" ++ dquote ++ "] > 10".
Proof.
  assert (Hall : Forall
                   (fun criterion : Filter Z =>
                      firstPiece (filter_field criterion) <> Some "documents"
                      /\ firstPiece (filter_field criterion)
                         <> Some "submissions")
                   [statusIsOpen; archivedUndefined; amountAboveTen 10%Z])
    by (repeat (constructor;
                [split; vm_compute; discriminate|]); constructor).
  exact (getAllOptionsQuery_keeps_where
           Z integerToString lowerLetters [] _ [] [] [] Hall).
Defined.

Lemma getFilterSql_collection_only_witness :
  nth_error (getFilterSql integerToString
               [statusIsOpen;
                {| filter_field := "submissions";
                   condition := equals;
                   value := boolean true |}]) 1
  = Some "JOIN (SELECT VALUE t1 FROM t1 IN backend.submissions WHERE t1.undefined = 'true')".
Proof.
  exact (getFilterSql_collection_only
           Z integerToString
           [statusIsOpen;
            {| filter_field := "submissions";
               condition := equals;
               value := boolean true |}]
           1 "submissions" equals (boolean true)
           (or_intror eq_refl) eq_refl).
Defined.

(** ** Further worked inputs: the list service *)

Lemma getCaseList_permission_failure_witness :
  getCaseList integerToString 10%Z lowerLetters storePermissionDown
              "customer-1" "project-1" None None None None None None None []
  = (Thrown (StoreError "TooManyRequests"),
     [QueryAll "Project" (permissionQuery "customer-1" "project-1") None]).
Proof.
  exact (getCaseList_permission_failure
           Z integerToString 10%Z lowerLetters storePermissionDown
           "customer-1" "project-1" None None None None None None None
           (StoreError "TooManyRequests") eq_refl).
Defined.

Lemma getCaseList_page_failure_witness :
  fst (getCaseList integerToString 10%Z lowerLetters storePageDown
                   "customer-1" "project-1" None None None None None None None
                   [])
  = Thrown (StoreError "TooManyRequests").
Proof.
  exact (f_equal fst
           (getCaseList_page_failure
              Z integerToString 10%Z lowerLetters storePageDown
              "customer-1" "project-1" None None None None None None None
              (feedOf [projectRecord]) (StoreError "TooManyRequests")
              eq_refl eq_refl)).
Defined.

Lemma getCaseList_permitted_rows_witness :
  exists page,
    fst (getCaseList integerToString 10%Z lowerLetters storeWithRecord
                     "customer-1" "project-1" None None None None None None
                     None [])
    = Returned page
    /\ list_result page = [invoiceCase].
Proof.
  destruct (getCaseList_permitted_rows
              Z integerToString 10%Z lowerLetters storeWithRecord
              "customer-1" "project-1" None None None None None None None
              (feedOf [projectRecord]) casePage projectRecord []
              [ {| type := Some "Invoice"; active := true |};
                {| type := Some "Waybill"; active := false |} ]
              eq_refl eq_refl eq_refl eq_refl)
    as [page [Hrun [Hrows _]]].
  exists page. split; [exact Hrun|exact Hrows].
Defined.

Lemma getCaseList_throws_iff_witness :
  exists e,
    fst (getCaseList integerToString 10%Z lowerLetters storeWithoutRecord
                     "customer-1" "project-1" None None None None None None
                     None [])
    = Thrown e.
Proof.
  pose proof (getCaseList_throws_iff
                Z integerToString 10%Z lowerLetters storeWithoutRecord
                "customer-1" "project-1" None None None None None None None
                (feedOf []) casePage eq_refl eq_refl) as H.
  cbv zeta in H. destruct H as [[_ Hthrows] _].
  apply Hthrows. split; [discriminate|left; reflexivity].
Defined.

(** ** Further worked inputs: [stringToObject] *)

Lemma stringToObject_read_back_witness :
  exists props,
    stringToObject "meta.tags.first" (primitive (str "a")) (caseObject 10%Z)
    = Returned props
    /\ readPath ["meta"; "tags"; "first"] (object props) = primitive (str "a").
Proof.
  assert (Hparts : Forall (fun part => part <> EmptyString)
                          (List.removelast (split dot "meta.tags.first")))
    by (cbn; repeat (constructor; [discriminate|]); constructor).
  assert (Hproto : ~ In "__proto__" (split dot "meta.tags.first"))
    by (cbn; intros [H|[H|[H|[]]]]; discriminate H).
  eexists. split; [reflexivity|].
  exact (proj1 (stringToObject_read_back
                  Z "meta.tags.first" (primitive (str "a")) Hparts Hproto)
               (caseObject 10%Z) _ eq_refl).
Defined.

Lemma stringToObject_throws_iff_witness :
  exists e,
    stringToObject "owner.name" (primitive (str "a")) (caseObject 10%Z)
    = Thrown e.
Proof.
  assert (Hparts : Forall (fun part => part <> EmptyString)
                          (List.removelast (split dot "owner.name")))
    by (cbn; repeat (constructor; [discriminate|]); constructor).
  assert (Hproto : ~ In "__proto__" (split dot "owner.name"))
    by (cbn; intros [H|[H|[]]]; discriminate H).
  apply (proj2 (stringToObject_throws_iff
                  Z "owner.name" (primitive (str "a")) (caseObject 10%Z)
                  Hparts Hproto)).
  exists ["owner"], []. split; [reflexivity|]. split; [discriminate|reflexivity].
Defined.

Lemma stringToObject_frame_witness :
  exists props,
    stringToObject "meta.tags.first" (primitive (str "a")) (caseObject 10%Z)
    = Returned props
    /\ readPath ["meta"; "kind"] (object props) = primitive (str "invoice").
Proof.
  assert (Hparts : Forall (fun part => part <> EmptyString)
                          (List.removelast (split dot "meta.tags.first")))
    by (cbn; repeat (constructor; [discriminate|]); constructor).
  assert (Hproto : ~ In "__proto__" (split dot "meta.tags.first"))
    by (cbn; intros [H|[H|[H|[]]]]; discriminate H).
  assert (Hways : partWays ["meta"; "kind"] (split dot "meta.tags.first"))
    by (cbn; apply partWays_later, partWays_here; discriminate).
  assert (Hheld : readPath ["meta"; "kind"] (object (caseObject 10%Z))
                  <> primitive undefined)
    by (cbn; discriminate).
  eexists. split; [reflexivity|].
  exact (stringToObject_frame
           Z "meta.tags.first" (primitive (str "a")) (caseObject 10%Z) _
           ["meta"; "kind"] Hparts Hproto eq_refl Hways Hheld).
Defined.

Lemma stringToObject_empty_segment_witness :
  stringToObject "a..b.c" (primitive (str "x")) (caseObject 10%Z)
  = stringToObject "a.c" (primitive (str "x")) (caseObject 10%Z).
Proof.
  assert (Hall : Forall (fun segment => lacks dot segment = true)
                        (["a"] ++ ["b"] ++ ["c"]))
    by (repeat constructor).
  assert (Hproto : ~ In "__proto__" (["a"] ++ ["b"] ++ ["c"]))
    by (cbn; intros [H|[H|[H|[]]]]; discriminate H).
  exact (stringToObject_empty_segment
           Z ["a"] ["b"] "c" (primitive (str "x")) (caseObject 10%Z)
           Hall Hproto).
Defined.
